(** * A shallow embedding of [main.py] (LLM-Git-Message)

    The program reads the working-tree diff of a git repository, keeps the
    relevant diff lines, sends a prompt to a chat-completion endpoint with a
    bounded retry loop and prints the suggested commit message.

    Python values that reach the code are modelled as follows:
    - strings as [String.string] (ASCII);
    - decoded JSON ([response.json()]) as the inductive [json]; a Python
      float literal is carried as its [repr], which is what [json.dumps]
      writes on the wire;
    - Python exceptions as the inductive [exn]; a computation that may
      raise returns [pyres A];
    - console output, git queries, HTTP requests and sleeps as events
      appended to a trace. *)

From Stdlib Require Import String Ascii List Bool ZArith Lia Permutation.
Import ListNotations.
Open Scope string_scope.

(* ------------------------------------------------------------------ *)
(** ** Python string helpers *)

(** [s.split(sep)] for a one-character separator: [n] separators give
    [n+1] pieces, and [""] splits into [[""]]. *)
Fixpoint py_split (sep : ascii) (s : string) : list string :=
  match s with
  | EmptyString => [""]
  | String c rest =>
      let parts := py_split sep rest in
      if Ascii.eqb c sep then "" :: parts
      else match parts with
           | p :: ps => String c p :: ps
           | [] => [String c ""]
           end
  end.

Definition newline : ascii := Ascii.ascii_of_nat 10.

(** [sep.join(parts)] *)
Definition py_join (sep : string) (parts : list string) : string :=
  String.concat sep parts.

(** [line.startswith(p)] *)
Definition startswith (line p : string) : bool := String.prefix p line.

(** The characters for which [str.isspace()] holds among ASCII:
    [\t \n \x0b \x0c \r], [\x1c]..[\x1f] and the space. *)
Definition py_isspace (c : ascii) : bool :=
  let n := Ascii.nat_of_ascii c in
  (Nat.leb 9 n && Nat.leb n 13) || (Nat.leb 28 n && Nat.leb n 32).

Fixpoint lstrip_chars (l : list ascii) : list ascii :=
  match l with
  | [] => []
  | c :: r => if py_isspace c then lstrip_chars r else l
  end.

(** [s.strip()] *)
Definition py_strip (s : string) : string :=
  string_of_list_ascii
    (rev (lstrip_chars (rev (lstrip_chars (list_ascii_of_string s))))).

(** [needle in hay] for two strings (substring test). *)
Fixpoint py_str_contains (needle hay : string) : bool :=
  String.prefix needle hay ||
  match hay with
  | EmptyString => false
  | String _ rest => py_str_contains needle rest
  end.

(** [ch * n] for a one-character string [ch]. *)
Fixpoint str_repeat (c : ascii) (n : nat) : string :=
  match n with
  | O => EmptyString
  | S k => String c (str_repeat c k)
  end.

(* ------------------------------------------------------------------ *)
(** ** Diff preprocessing ([get_git_diffs], lines 57-64) *)

(** The condition of the [if] on lines 60-63. *)
Definition keep_line (line : string) : bool :=
  startswith line "+" || startswith line "-" ||
  startswith line "@@" || startswith line "diff --git" ||
  startswith line "---" || startswith line "+++" ||
  startswith line "index ".

(** The inner [for] loop: [processed_diff] built by appending each kept
    line of [diff_text.split("\n")]. *)
Fixpoint process_lines (lines : list string) (processed_diff : list string)
  : list string :=
  match lines with
  | [] => processed_diff
  | line :: rest =>
      process_lines rest
        (if keep_line line then (processed_diff ++ [line])%list else processed_diff)
  end.

Definition process_diff (diff_text : string) : list string :=
  process_lines (py_split newline diff_text) [].

(** The filtering policy in the words of the spec: a line is retained iff
    it starts with one of the listed prefixes. *)
Definition spec_prefixes : list string :=
  ["+"; "-"; "@@"; "diff --git"; "---"; "+++"; "index "].

Definition spec_retained (line : string) : bool :=
  existsb (fun p => String.prefix p line) spec_prefixes.

(* ------------------------------------------------------------------ *)
(** ** Python values, exceptions and the observable trace *)

(** A decoded JSON document as [json.loads] returns it. Objects are kept
    as the association list of the document; a repeated key resolves to
    its last occurrence, as in the [dict] that [json.loads] builds. *)
Set Warnings "-register-all".
Inductive json : Type :=
| JNull
| JBool (b : bool)
| JInt (z : Z)
| JFloat (repr : string)
| JStr (s : string)
| JArr (items : list json)
| JObj (kvs : list (string * json)).

(** The exceptions that the modelled code can raise. *)
Inductive exn : Type :=
| NoSuchPathError (path : string)            (* git.exc.NoSuchPathError *)
| InvalidGitRepositoryError (path : string)  (* git.exc.InvalidGitRepositoryError *)
| GitCommandError (msg : string)             (* raised by repo.git.diff *)
| RequestException (msg : string)            (* requests.exceptions.RequestException *)
| KeyError
| IndexError
| TypeError
| AttributeError.

(** The [except requests.exceptions.RequestException] filter. *)
Definition is_request_exception (e : exn) : bool :=
  match e with RequestException _ => true | _ => false end.

(** Result of a Python computation that may raise. *)
Inductive pyres (A : Type) : Type :=
| Ok (a : A)
| Exc (e : exn).
Arguments Ok {A} a.
Arguments Exc {A} e.

Definition py_bind {A B} (m : pyres A) (k : A -> pyres B) : pyres B :=
  match m with Ok a => k a | Exc e => Exc e end.

Declare Scope py_scope.
Notation "x <-? m ;; k" := (py_bind m (fun x => k))
  (at level 61, m at next level, right associativity) : py_scope.
Open Scope py_scope.

(** Observable effects, in program order. *)
Inductive event : Type :=
| EvIndexDiff                                 (* repo.index.diff(None) *)
| EvGitDiff (path : string)                   (* repo.git.diff(path) *)
| EvPost (url : string) (payload : json)
         (headers : list (string * string)) (timeout : nat)
                                              (* requests.post(...) *)
| EvSleep (secs : nat)                        (* time.sleep(secs) *)
| EvPrint (s : string)                        (* print of a fixed text *)
| EvPrintWarning (path : string) (e : exn)    (* line 71 *)
| EvPrintUnexpected (data : json)             (* line 121 *)
| EvPrintStatusFailure (status : Z) (text : string) (* line 124 *)
| EvPrintRequestError (attempt max : nat) (e : exn) (* line 127 *)
| EvPrintRetrying (delay : nat)               (* line 132 *)
| EvPrintGenerationError (e : exn).           (* line 167 *)

Definition trace := list event.

(* ------------------------------------------------------------------ *)
(** ** Python operations on decoded JSON *)

Fixpoint lookup_first (k : string) (kvs : list (string * json)) : option json :=
  match kvs with
  | [] => None
  | (k', v) :: r => if String.eqb k k' then Some v else lookup_first k r
  end.

(** [d[k]] on the dict built from [kvs]: the last binding wins. *)
Definition dict_lookup (k : string) (kvs : list (string * json)) : option json :=
  lookup_first k (rev kvs).

(** A subscript: a string key or an integer index. *)
Inductive pykey : Type :=
| KStr (s : string)
| KInt (i : Z).

(** Python's index normalisation for a sequence of length [n]. *)
Definition seq_index (n : nat) (i : Z) : option nat :=
  let zn := Z.of_nat n in
  if (0 <=? i)%Z && (i <? zn)%Z then Some (Z.to_nat i)
  else if (- zn <=? i)%Z && (i <? 0)%Z then Some (Z.to_nat (zn + i))
  else None.

(** [v[k]] *)
Definition py_getitem (v : json) (k : pykey) : pyres json :=
  match v, k with
  | JObj kvs, KStr s =>
      match dict_lookup s kvs with Some x => Ok x | None => Exc KeyError end
  | JObj _, KInt _ => Exc KeyError
  | JArr l, KInt i =>
      match seq_index (length l) i with
      | Some n => match nth_error l n with Some x => Ok x | None => Exc IndexError end
      | None => Exc IndexError
      end
  | JStr s, KInt i =>
      match seq_index (String.length s) i with
      | Some n => match String.get n s with
                  | Some c => Ok (JStr (String c EmptyString))
                  | None => Exc IndexError
                  end
      | None => Exc IndexError
      end
  | _, _ => Exc TypeError
  end.

(** [needle in v] for a string [needle]. *)
Definition py_contains (needle : string) (v : json) : pyres bool :=
  match v with
  | JObj kvs => Ok (existsb (fun kv => String.eqb needle (fst kv)) kvs)
  | JArr l => Ok (existsb (fun x => match x with
                                    | JStr s => String.eqb needle s
                                    | _ => false end) l)
  | JStr s => Ok (py_str_contains needle s)
  | _ => Exc TypeError
  end.

(** [len(v)] *)
Definition py_len (v : json) : pyres nat :=
  match v with
  | JObj kvs => Ok (length (nodup string_dec (map fst kvs)))
  | JArr l => Ok (length l)
  | JStr s => Ok (String.length s)
  | _ => Exc TypeError
  end.

(** [v.strip()] *)
Definition py_strip_json (v : json) : pyres string :=
  match v with
  | JStr s => Ok (py_strip s)
  | _ => Exc AttributeError
  end.

(* ------------------------------------------------------------------ *)
(** ** The repository as GitPython presents it *)

(** What [repo.git.diff(item.a_path)] does for one modified file: return
    the diff text, or raise a [GitCommandError]. *)
Inductive git_diff_out : Type :=
| DiffText (text : string)
| DiffRaises (msg : string).

(** One entry of [repo.index.diff(None)] (files modified relative to the
    index), together with the outcome of [repo.git.diff] on its path. *)
Record diff_item : Type := mk_item {
  a_path : string;
  git_diff : git_diff_out
}.

(** What lies at a filesystem path. *)
Inductive path_state : Type :=
| NoSuchPath
| PlainDirectory
| GitRepo (modified : list diff_item).

Section Git.
Variable fs : string -> path_state.

(** [git.Repo(path)], as GitPython's constructor behaves: a path that
    does not exist raises [NoSuchPathError] (a subclass of [GitError] and
    [OSError], not of [InvalidGitRepositoryError]); an existing path
    without repository metadata raises [InvalidGitRepositoryError]. *)
Definition git_Repo (path : string) : pyres (list diff_item) :=
  match fs path with
  | NoSuchPath => Exc (NoSuchPathError path)
  | PlainDirectory => Exc (InvalidGitRepositoryError path)
  | GitRepo items => Ok items
  end.

(** [is_git_repository] (lines 36-41): only
    [InvalidGitRepositoryError] is caught. *)
Definition is_git_repository (path : string) : pyres bool :=
  match git_Repo path with
  | Ok _ => Ok true
  | Exc (InvalidGitRepositoryError _) => Ok false
  | Exc e => Exc e
  end.

(** The block appended on line 67. *)
Definition file_block (path : string) (processed_diff : list string) : string :=
  "File: " ++ path ++ String newline EmptyString
  ++ py_join (String newline EmptyString) processed_diff.

(** The body of the [for item in repo.index.diff(None)] loop
    (lines 52-72), threading [diffs] and the trace. *)
Fixpoint diff_loop (items : list diff_item) (diffs : list string) (tr : trace)
  : list string * trace :=
  match items with
  | [] => (diffs, tr)
  | item :: rest =>
      let tr1 := (tr ++ [EvGitDiff (a_path item)])%list in
      match git_diff item with
      | DiffRaises msg =>
          diff_loop rest diffs (tr1 ++ [EvPrintWarning (a_path item) (GitCommandError msg)])%list
      | DiffText diff_text =>
          let processed_diff := process_diff diff_text in
          match processed_diff with
          | [] => diff_loop rest diffs tr1
          | _ :: _ => diff_loop rest (diffs ++ [file_block (a_path item) processed_diff])%list tr1
          end
      end
  end.

Definition blank_line_sep : string := String newline (String newline EmptyString).

(** [get_git_diffs] (lines 44-74). *)
Definition get_git_diffs (repo_path : string) (tr : trace) : pyres string * trace :=
  match git_Repo repo_path with
  | Exc e => (Exc e, tr)
  | Ok items =>
      let '(diffs, tr') := diff_loop items [] (tr ++ [EvIndexDiff])%list in
      (Ok (py_join blank_line_sep diffs), tr')
  end.

End Git.

(* ------------------------------------------------------------------ *)
(** ** Configuration (lines 9-33) *)

Definition SYSTEM_PROMPT : string := "
You are an expert software developer helping to write clear, concise, and informative commit messages.
Analyze the git diff changes and generate a commit message that follows conventional commit format.

Guidelines:
- Use conventional commit format: <type>(<scope>): <description>
- Common types: feat, fix, docs, style, refactor, test, chore
- Keep the description under 50 characters
- Provide a detailed body explaining WHAT changed and WHY (if needed)
- Focus on the actual changes, not the process
- Be specific about what was added, removed, or modified

Example format:
feat(auth): add user login functionality

- Implement JWT token generation
- Add login endpoint at /api/auth/login
- Include input validation for credentials
".

Definition MODEL_NAME : string := "llama3".
Definition API_ENDPOINT : string := "http://localhost:11434/v1/chat/completions".
Definition API_KEY : string := "ollama".
Definition MAX_RETRIES : nat := 3.
Definition BASE_DELAY : nat := 1.

(* ------------------------------------------------------------------ *)
(** ** The API client ([call_llm_api], lines 93-136) *)

(** What one [requests.post] call yields: a network-level exception, or
    a response with its status, its text and the document that
    [response.json()] decodes ([None] when the text is not JSON, in
    which case [response.json()] raises [requests.exceptions.JSONDecodeError],
    a [RequestException]). *)
Inductive outcome : Type :=
| ONetError (msg : string)
| OResponse (status : Z) (text : string) (body : option json).

(** The [headers] dict (lines 97-100). *)
Definition headers : list (string * string) :=
  [("Content-Type", "application/json");
   ("Authorization", if String.eqb API_KEY "" then "" else "Bearer " ++ API_KEY)].

(** The [payload] dict (lines 102-110); [0.3] is carried as its repr. *)
Definition payload (prompt : string) : json :=
  JObj [("model", JStr MODEL_NAME);
        ("messages", JArr [JObj [("role", JStr "system"); ("content", JStr SYSTEM_PROMPT)];
                           JObj [("role", JStr "user"); ("content", JStr prompt)]]);
        ("temperature", JFloat "0.3");
        ("max_tokens", JInt 500)].

(** [response.json()] *)
Definition response_json (body : option json) : pyres json :=
  match body with
  | Some d => Ok d
  | None => Exc (RequestException "JSONDecodeError")
  end.

(** The test on line 118:
    [ "choices" in data and len(data["choices"]) > 0 ]. *)
Definition has_choices (data : json) : pyres bool :=
  b <-? py_contains "choices" data ;;
  if b then
    c <-? py_getitem data (KStr "choices") ;;
    n <-? py_len c ;;
    Ok (Nat.ltb 0 n)
  else Ok false.

(** Line 119: [data["choices"][0]["message"]["content"].strip()]. *)
Definition first_content (data : json) : pyres string :=
  c <-? py_getitem data (KStr "choices") ;;
  c0 <-? py_getitem c (KInt 0) ;;
  m <-? py_getitem c0 (KStr "message") ;;
  ct <-? py_getitem m (KStr "content") ;;
  py_strip_json ct.

(** How the [try] block of one iteration ends. *)
Inductive step : Type :=
| SReturn (r : option string)   (* a [return] statement *)
| SRaise (e : exn)              (* an exception not caught by the [except] *)
| SFallThrough.                 (* control reaches the backoff code *)

Section Client.
(** The answer of the endpoint to the [n]-th POST. *)
Variable llm : nat -> outcome.

(** The [try]/[except] block of lines 113-127, at iteration [attempt]. *)
Definition attempt_body (prompt : string) (attempt : nat) (tr : trace) : step * trace :=
  let tr1 := (tr ++ [EvPost API_ENDPOINT (payload prompt) headers 30])%list in
  let caught e := (SFallThrough, tr1 ++ [EvPrintRequestError (attempt + 1) MAX_RETRIES e])%list in
  match llm attempt with
  | ONetError msg => caught (RequestException msg)
  | OResponse status text body =>
      if Z.eqb status 200 then
        match response_json body with
        | Exc e => if is_request_exception e then caught e else (SRaise e, tr1)
        | Ok data =>
            match has_choices data with
            | Exc e => (SRaise e, tr1)
            | Ok true =>
                match first_content data with
                | Ok s => (SReturn (Some s), tr1)
                | Exc e => (SRaise e, tr1)
                end
            | Ok false => (SReturn None, tr1 ++ [EvPrintUnexpected data])%list
            end
        end
      else (SFallThrough, tr1 ++ [EvPrintStatusFailure status text])%list
  end.

(** Lines 129-133. *)
Definition backoff (attempt : nat) (tr : trace) : trace :=
  if Nat.ltb attempt (MAX_RETRIES - 1) then
    let delay := BASE_DELAY * 2 ^ attempt in
    (tr ++ [EvPrintRetrying delay; EvSleep delay])%list
  else tr.

(** [for attempt in range(MAX_RETRIES)], run over the remaining values
    of [attempt], followed by lines 135-136. *)
Fixpoint retry_loop (prompt : string) (attempts : list nat) (tr : trace)
  : pyres (option string) * trace :=
  match attempts with
  | [] => (Ok None, tr ++ [EvPrint "Failed to get response from LLM after all retries."])%list
  | attempt :: rest =>
      match attempt_body prompt attempt tr with
      | (SReturn r, tr') => (Ok r, tr')
      | (SRaise e, tr') => (Exc e, tr')
      | (SFallThrough, tr') => retry_loop prompt rest (backoff attempt tr')
      end
  end.

Definition call_llm_api (prompt : string) (tr : trace) : pyres (option string) * trace :=
  retry_loop prompt (seq 0 MAX_RETRIES) tr.

(** [generate_commit_message] (lines 77-90). *)
Definition user_prompt (diffs : string) : string :=
  String newline EmptyString
  ++ "Please analyze the following git changes and generate an appropriate commit message:"
  ++ String newline (String newline EmptyString)
  ++ diffs
  ++ String newline (String newline EmptyString)
  ++ "Remember to follow the conventional commit format and focus on the actual changes made."
  ++ String newline EmptyString.

Definition generate_commit_message (diffs : string) (tr : trace)
  : pyres (option string) * trace :=
  call_llm_api (user_prompt diffs) tr.

End Client.

(* ------------------------------------------------------------------ *)
(** ** The command-line driver ([main], lines 139-168) *)

Definition SEPARATOR : string := str_repeat "=" 50.

(** [main()] after [argparse] has produced [repo_path]. *)
Definition main (fs : string -> path_state) (llm : nat -> outcome) (repo_path : string)
  : pyres unit * trace :=
  match is_git_repository fs repo_path with
  | Exc e => (Exc e, [])
  | Ok false => (Ok tt, [EvPrint "Error: The specified path is not a valid git repository."])
  | Ok true =>
      match get_git_diffs fs repo_path [] with
      | (Exc e, tr) => (Exc e, tr)
      | (Ok diffs, tr) =>
          if String.eqb diffs "" then
            (Ok tt, tr ++ [EvPrint "No changes detected in the repository."])%list
          else
            match generate_commit_message llm diffs tr with
            | (Exc e, tr2) =>
                (Ok tt, tr2 ++ [EvPrintGenerationError e;
                    EvPrint "Please try again later or write the commit message manually."])%list
            | (Ok None, tr2) => (Ok tt, tr2 ++ [EvPrint "No commit message generated."])%list
            | (Ok (Some commit_message), tr2) =>
                (Ok tt, tr2 ++ [EvPrint "Suggested commit message:"; EvPrint SEPARATOR;
                                EvPrint commit_message; EvPrint SEPARATOR])%list
            end
      end
  end.

(** The interpreter's exit status: an exception escaping [main] ends the
    process with status 1 after printing its traceback. *)
Definition exit_code {A} (r : pyres A) : nat :=
  match r with Ok _ => 0 | Exc _ => 1 end.

(* ------------------------------------------------------------------ *)
(** ** Trace observations *)

Definition is_post (e : event) : bool :=
  match e with EvPost _ _ _ _ => true | _ => false end.

Definition is_sleep (e : event) : bool :=
  match e with EvSleep _ => true | _ => false end.

Definition is_git_query (e : event) : bool :=
  match e with EvIndexDiff | EvGitDiff _ => true | _ => false end.

(** The durations of the sleeps of a trace, in order. *)
Fixpoint sleeps (tr : trace) : list nat :=
  match tr with
  | [] => []
  | EvSleep d :: r => d :: sleeps r
  | _ :: r => sleeps r
  end.

Definition count_posts (tr : trace) : nat := length (filter is_post tr).

(* ------------------------------------------------------------------ *)
(** ** Descriptions in the words of the specification *)

(** [l1] is a subsequence of [l2]: its elements occur in [l2], unchanged
    and in the same relative order. *)
Inductive subseq {A : Type} : list A -> list A -> Prop :=
| subseq_nil : subseq [] []
| subseq_skip x l1 l2 : subseq l1 l2 -> subseq l1 (x :: l2)
| subseq_keep x l1 l2 : subseq l1 l2 -> subseq (x :: l1) (x :: l2).

(** The filtered diff lines of a modified file; a file whose diff could
    not be retrieved has none. *)
Definition retained_lines (item : diff_item) : list string :=
  match git_diff item with
  | DiffText t => process_diff t
  | DiffRaises _ => []
  end.

Definition yields_content (item : diff_item) : bool :=
  match retained_lines item with [] => false | _ :: _ => true end.

(** A block: a [File: <path>] line followed by the filtered lines. *)
Definition spec_block (path : string) (lines : list string) : string :=
  py_join (String newline EmptyString) (("File: " ++ path) :: lines).

(** One block per file with content, in the order the files are reported. *)
Definition spec_blocks (items : list diff_item) : list string :=
  map (fun it => spec_block (a_path it) (retained_lines it)) (filter yields_content items).

(** An endpoint answer that makes an attempt fail and be retried: a
    network exception, a non-200 status, or a 200 whose body is not JSON. *)
Definition retryable (o : outcome) : bool :=
  match o with
  | ONetError _ => true
  | OResponse status _ body =>
      negb (Z.eqb status 200) || match body with None => true | Some _ => false end
  end.

(** The JSON body has a [choices] key bound to a non-empty array. *)
Definition has_nonempty_choices_array (data : json) : bool :=
  match data with
  | JObj kvs =>
      match dict_lookup "choices" kvs with Some (JArr (_ :: _)) => true | _ => false end
  | _ => false
  end.

(** The body is an object whose [choices] is missing or an empty array. *)
Definition choices_missing_or_empty (data : json) : bool :=
  match data with
  | JObj kvs =>
      match dict_lookup "choices" kvs with None | Some (JArr []) => true | _ => false end
  | _ => false
  end.

(** The string [message.content] of the first element of [choices]. *)
Definition first_choice_content (data : json) : option string :=
  match data with
  | JObj kvs =>
      match dict_lookup "choices" kvs with
      | Some (JArr (JObj ckvs :: _)) =>
          match dict_lookup "message" ckvs with
          | Some (JObj mkvs) =>
              match dict_lookup "content" mkvs with Some (JStr s) => Some s | _ => None end
          | _ => None
          end
      | _ => None
      end
  | _ => None
  end.

(** An endpoint answer on which the client is not expected to raise:
    a retryable failure, or a 200 whose JSON is an object with no or an
    empty [choices], or whose first choice carries a string content. *)
Definition handled_outcome (o : outcome) : bool :=
  retryable o ||
  match o with
  | OResponse _ _ (Some data) =>
      choices_missing_or_empty data ||
      match first_choice_content data with Some _ => true | None => false end
  | _ => false
  end.

(** The request described by the specification. *)
Definition spec_payload (prompt : string) : json :=
  JObj [("model", JStr "llama3");
        ("messages", JArr [JObj [("role", JStr "system"); ("content", JStr SYSTEM_PROMPT)];
                           JObj [("role", JStr "user"); ("content", JStr prompt)]]);
        ("temperature", JFloat "0.3");
        ("max_tokens", JInt 500)].

Definition spec_headers : list (string * string) :=
  [("Content-Type", "application/json"); ("Authorization", "Bearer " ++ API_KEY)].

Definition post_as_specified (prompt : string) (e : event) : Prop :=
  match e with
  | EvPost url p h _ => url = API_ENDPOINT /\ p = spec_payload prompt /\ h = spec_headers
  | _ => True
  end.

(** A line of fifty [=] characters. *)
Definition fifty_equals : string :=
  "==================================================".

(* ------------------------------------------------------------------ *)
(** ** Sample inputs *)

Definition sample_diff : string :=
"diff --git a/app.py b/app.py
index 3b18e51..a9c4f2d 100644
--- a/app.py
+++ b/app.py
@@ -1,3 +1,4 @@
 import os
-print(1)
+print(2)
+print(3)".

Definition sample_items : list diff_item :=
  [mk_item "app.py" (DiffText sample_diff);
   mk_item "logo.png" (DiffText "Binary files a/logo.png and b/logo.png differ");
   mk_item "gone.txt" (DiffRaises "fatal: bad revision")].

Definition sample_fs : string -> path_state :=
  fun p => if String.eqb p "repo" then GitRepo sample_items
           else if String.eqb p "empty" then GitRepo [] else PlainDirectory.

(** The endpoint answer of the scenario of the specification. *)
Definition feat_response : outcome :=
  OResponse 200 ""
    (Some (JObj [("choices", JArr [JObj [("message", JObj [("content", JStr "  feat: add X  ")])]])])).

Definition always_500 : nat -> outcome := fun _ => OResponse 500 "Internal Server Error" None.

Definition flaky_then_ok : nat -> outcome :=
  fun n => match n with
           | 0 => ONetError "Connection refused"
           | 1 => OResponse 503 "Service Unavailable" None
           | _ => feat_response
           end.

(** The events one modified file adds to the trace of [get_git_diffs]:
    its [repo.git.diff] query, then a warning if that query raised. *)
Definition item_events (item : diff_item) : trace :=
  EvGitDiff (a_path item) ::
  match git_diff item with
  | DiffRaises msg => [EvPrintWarning (a_path item) (GitCommandError msg)]
  | DiffText _ => []
  end.

(** The sleeps that the backoff after attempt [a] performs. *)
Definition backoff_delays (a : nat) : list nat := sleeps (backoff a []).

(* ------------------------------------------------------------------ *)
(** * Proofs *)

(** ** String and list facts *)

Lemma str_app_assoc (a b c : string) : (a ++ b) ++ c = a ++ (b ++ c).
Proof. induction a as [|x a IH]; simpl; [reflexivity | now rewrite IH]. Qed.

Lemma process_lines_app (lines acc : list string) :
  process_lines lines acc = (acc ++ filter keep_line lines)%list.
Proof.
  revert acc; induction lines as [|l r IH]; intro acc; simpl.
  - now rewrite app_nil_r.
  - rewrite IH. destruct (keep_line l); simpl; [now rewrite <- app_assoc | reflexivity].
Qed.

Lemma keep_line_spec (line : string) : keep_line line = spec_retained line.
Proof.
  unfold keep_line, spec_retained, startswith; simpl.
  destruct (String.prefix "+" line), (String.prefix "-" line),
           (String.prefix "@@" line), (String.prefix "diff --git" line),
           (String.prefix "---" line), (String.prefix "+++" line),
           (String.prefix "index " line); reflexivity.
Qed.

Lemma process_diff_filter (diff_text : string) :
  process_diff diff_text = filter spec_retained (py_split newline diff_text).
Proof.
  unfold process_diff. rewrite process_lines_app. simpl.
  apply filter_ext. exact keep_line_spec.
Qed.

Lemma filter_subseq {A} (f : A -> bool) (l : list A) : subseq (filter f l) l.
Proof.
  induction l as [|x l IH]; simpl; [constructor|].
  destruct (f x); constructor; exact IH.
Qed.

Lemma filter_permutation {A} (f : A -> bool) (l1 l2 : list A) :
  Permutation l1 l2 -> Permutation (filter f l1) (filter f l2).
Proof.
  induction 1 as [| x l1 l2 _ IH | x y l | l1 l2 l3 _ IH1 _ IH2]; simpl.
  - constructor.
  - destruct (f x); [constructor|]; exact IH.
  - destruct (f x), (f y); try constructor; reflexivity.
  - now rewrite IH1.
Qed.

Lemma filter_length_bound {A} (f : A -> bool) (l : list A) :
  length (filter f l) <= length l.
Proof. induction l as [|x l IH]; simpl; [lia | destruct (f x); simpl; lia]. Qed.

Lemma filter_empty_iff {A} (f : A -> bool) (l : list A) :
  filter f l = [] <-> (forall x, In x l -> f x = false).
Proof.
  induction l as [|x l IH]; simpl; [tauto|].
  destruct (f x) eqn:Hx; split.
  - discriminate.
  - intro H. rewrite (H x (or_introl eq_refl)) in Hx. discriminate.
  - intros Hn y [<- | Hy]; [exact Hx | apply IH; assumption].
  - intro H. apply IH. intros y Hy. apply H. now right.
Qed.

Lemma app_nonempty (a b : string) : a <> "" -> a ++ b <> "".
Proof. destruct a; simpl; [tauto | discriminate]. Qed.

Lemma concat_empty_iff (sep : string) (bs : list string) :
  (forall b, In b bs -> b <> "") -> (String.concat sep bs = "" <-> bs = []).
Proof.
  intro Hne. destruct bs as [|b bs]; simpl; [tauto|].
  assert (Hb : b <> "") by (apply Hne; now left).
  split; [|discriminate].
  destruct bs; intro H; [contradiction | exfalso; exact (app_nonempty _ _ Hb H)].
Qed.

Lemma spec_block_nonempty (p : string) (lines : list string) : spec_block p lines <> "".
Proof. unfold spec_block, py_join. destruct lines; simpl; discriminate. Qed.

Lemma file_block_spec (p l : string) (ls : list string) :
  file_block p (l :: ls) = spec_block p (l :: ls).
Proof.
  unfold file_block, spec_block, py_join.
  change (String.concat (String newline "") (("File: " ++ p) :: l :: ls))
    with (("File: " ++ p) ++ String newline "" ++ String.concat (String newline "") (l :: ls)).
  rewrite !str_app_assoc. reflexivity.
Qed.

Lemma spec_blocks_cons (it : diff_item) (items : list diff_item) :
  spec_blocks (it :: items) =
  if yields_content it then spec_block (a_path it) (retained_lines it) :: spec_blocks items
  else spec_blocks items.
Proof. unfold spec_blocks; simpl; destruct (yields_content it); reflexivity. Qed.

Lemma diff_loop_blocks (items : list diff_item) (diffs : list string) (tr : trace) :
  fst (diff_loop items diffs tr) = (diffs ++ spec_blocks items)%list.
Proof.
  revert diffs tr; induction items as [|it items IH]; intros diffs tr; simpl.
  - now rewrite app_nil_r.
  - rewrite spec_blocks_cons.
    unfold yields_content, retained_lines.
    destruct (git_diff it) as [t | msg].
    + destruct (process_diff t) as [|l ls].
      * apply IH.
      * rewrite IH, <- app_assoc. simpl. rewrite file_block_spec. reflexivity.
    + apply IH.
Qed.

(** ** C1: the line filter *)

(** C1. The Diff Extractor's filtering keeps exactly the lines of
    [diff_text.split("\n")] that start with one of [+], [-], [@@],
    [diff --git], [---], [+++], [index ], and discards all others; the
    decision is made line by line, so it does not depend on where a line
    appears: filtering a concatenation or a permutation of lines gives the
    concatenation or a permutation of the results. *)
Theorem get_git_diffs_keeps_exactly_prefixed_lines :
  (forall diff_text : string,
      process_diff diff_text = filter spec_retained (py_split newline diff_text) /\
      (forall line, In line (process_diff diff_text) <->
                    In line (py_split newline diff_text) /\ spec_retained line = true)) /\
  (forall l1 l2 : list string,
      process_lines (l1 ++ l2) [] = (process_lines l1 [] ++ process_lines l2 [])%list) /\
  (forall l1 l2 : list string,
      Permutation l1 l2 -> Permutation (process_lines l1 []) (process_lines l2 [])).
Proof.
  split; [|split].
  - intro diff_text. rewrite process_diff_filter. split; [reflexivity|].
    intro line. apply filter_In.
  - intros l1 l2. rewrite !process_lines_app. simpl. apply filter_app.
  - intros l1 l2 Hp. rewrite !process_lines_app. simpl. now apply filter_permutation.
Qed.

Lemma get_git_diffs_keeps_exactly_prefixed_lines_witness :
  Permutation ["+new"; " context"] [" context"; "+new"] /\
  Permutation (process_lines ["+new"; " context"] []) (process_lines [" context"; "+new"] []) /\
  process_diff sample_diff =
    ["diff --git a/app.py b/app.py"; "index 3b18e51..a9c4f2d 100644"; "--- a/app.py";
     "+++ b/app.py"; "@@ -1,3 +1,4 @@"; "-print(1)"; "+print(2)"; "+print(3)"].
Proof.
  assert (Hp : Permutation ["+new"; " context"] [" context"; "+new"]) by apply perm_swap.
  split; [exact Hp|]. split.
  - exact (proj2 (proj2 get_git_diffs_keeps_exactly_prefixed_lines) _ _ Hp).
  - rewrite (proj1 (proj1 get_git_diffs_keeps_exactly_prefixed_lines sample_diff)).
    vm_compute. reflexivity.
Defined.

(** ** C10: retained lines are a subsequence of the diff *)

(** C10. The filtered lines of a file are a subsequence of the lines of
    its diff text: each is an unmodified input line and they keep their
    relative order. *)
Theorem get_git_diffs_filtered_lines_subsequence (diff_text : string) :
  subseq (process_diff diff_text) (py_split newline diff_text).
Proof. rewrite process_diff_filter. apply filter_subseq. Qed.

(** ** C5: the Diff Bundle *)

(** C5. For a repository whose modified files are [items], the bundle
    returned by [get_git_diffs] is the blank-line separated join of one
    [File: <path>] block per file with a non-empty filtered diff, in the
    reported order; there are at most as many blocks as modified files,
    and the bundle is empty exactly when no file yields content. *)
Theorem get_git_diffs_bundle (fs : string -> path_state) (repo_path : string)
  (items : list diff_item) (tr : trace) :
  fs repo_path = GitRepo items ->
  exists tr',
    get_git_diffs fs repo_path tr = (Ok (py_join blank_line_sep (spec_blocks items)), tr') /\
    length (spec_blocks items) <= length items /\
    (py_join blank_line_sep (spec_blocks items) = "" <->
       forall it, In it items -> yields_content it = false).
Proof.
  intro Hfs. unfold get_git_diffs, git_Repo. rewrite Hfs.
  destruct (diff_loop items [] (tr ++ [EvIndexDiff])%list) as [diffs tr'] eqn:Hl.
  exists tr'. split; [|split].
  - pose proof (diff_loop_blocks items [] (tr ++ [EvIndexDiff])%list) as H.
    rewrite Hl in H. simpl in H. now subst diffs.
  - unfold spec_blocks. rewrite length_map. apply filter_length_bound.
  - unfold py_join. rewrite concat_empty_iff.
    + unfold spec_blocks. rewrite <- filter_empty_iff.
      split; intro H; [now apply map_eq_nil in H | now rewrite H].
    + intros b Hb. unfold spec_blocks in Hb. apply in_map_iff in Hb.
      destruct Hb as [it [<- _]]. apply spec_block_nonempty.
Qed.

(** ** Facts about the client *)

Open Scope list_scope.

Lemma existsb_rev {A} (f : A -> bool) (l : list A) : existsb f (rev l) = existsb f l.
Proof.
  induction l as [|x l IH]; simpl; [reflexivity|].
  rewrite existsb_app, IH. simpl. now rewrite orb_false_r, orb_comm.
Qed.

Lemma lookup_first_none (k : string) (kvs : list (string * json)) :
  lookup_first k kvs = None -> existsb (fun kv => String.eqb k (fst kv)) kvs = false.
Proof.
  induction kvs as [|[k' v] kvs IH]; simpl; [reflexivity|].
  destruct (String.eqb k k'); [discriminate | exact IH].
Qed.

Lemma lookup_first_some (k : string) (kvs : list (string * json)) (v : json) :
  lookup_first k kvs = Some v -> existsb (fun kv => String.eqb k (fst kv)) kvs = true.
Proof.
  induction kvs as [|[k' w] kvs IH]; simpl; [discriminate|].
  destruct (String.eqb k k'); [reflexivity | exact IH].
Qed.

Lemma contains_dict_none (k : string) (kvs : list (string * json)) :
  dict_lookup k kvs = None -> py_contains k (JObj kvs) = Ok false.
Proof.
  unfold dict_lookup. intro H. simpl. f_equal.
  rewrite <- existsb_rev. now apply lookup_first_none.
Qed.

Lemma contains_dict_some (k : string) (kvs : list (string * json)) (v : json) :
  dict_lookup k kvs = Some v -> py_contains k (JObj kvs) = Ok true.
Proof.
  unfold dict_lookup. intro H. simpl. f_equal.
  rewrite <- existsb_rev. now apply (lookup_first_some _ _ v).
Qed.

(** A well-formed first choice is returned, stripped. *)
Lemma first_choice_content_ok (data : json) (s : string) :
  first_choice_content data = Some s ->
  has_choices data = Ok true /\ first_content data = Ok (py_strip s).
Proof.
  unfold first_choice_content. destruct data as [| | | | | |kvs]; try discriminate.
  destruct (dict_lookup "choices" kvs) as [c|] eqn:Hc; [|discriminate].
  destruct c as [| | | | |[|c0 cs]|]; try discriminate.
  destruct c0 as [| | | | | |ckvs]; try discriminate.
  destruct (dict_lookup "message" ckvs) as [m|] eqn:Hm; [|discriminate].
  destruct m as [| | | | | |mkvs]; try discriminate.
  destruct (dict_lookup "content" mkvs) as [ct|] eqn:Hct; [|discriminate].
  destruct ct; try discriminate. intros [= <-]. split.
  - unfold has_choices. rewrite (contains_dict_some _ _ _ Hc). simpl. now rewrite Hc.
  - unfold first_content. simpl. rewrite Hc. simpl. rewrite Hm. simpl. now rewrite Hct.
Qed.

(** A body with no or empty [choices] fails the test of line 118. *)
Lemma choices_missing_has_choices (data : json) :
  choices_missing_or_empty data = true -> has_choices data = Ok false.
Proof.
  unfold choices_missing_or_empty. destruct data as [| | | | | |kvs]; try discriminate.
  destruct (dict_lookup "choices" kvs) as [c|] eqn:Hc.
  - destruct c as [| | | | |[|c0 cs]|]; try discriminate. intros _.
    unfold has_choices. rewrite (contains_dict_some _ _ _ Hc). simpl. now rewrite Hc.
  - intros _. unfold has_choices. now rewrite (contains_dict_none _ _ Hc).
Qed.

(** Line 119 only succeeds on a non-empty [choices] array. *)
Lemma first_content_needs_array (data : json) (s : string) :
  first_content data = Ok s -> has_nonempty_choices_array data = true.
Proof.
  unfold first_content, has_nonempty_choices_array.
  destruct data as [| | | | | |kvs]; try discriminate. simpl.
  destruct (dict_lookup "choices" kvs) as [c|]; simpl; [|discriminate].
  destruct c as [| | | |str|[|c0 cs]|ckvs]; simpl; try discriminate; try reflexivity.
  destruct (seq_index (String.length str) 0) as [n|]; simpl; [|discriminate].
  destruct (String.get n str); simpl; discriminate.
Qed.

Definition the_post (prompt : string) : event :=
  EvPost API_ENDPOINT (payload prompt) headers 30.

Lemma attempt_body_retryable (llm : nat -> outcome) (prompt : string) (a : nat) (tr : trace) :
  retryable (llm a) = true ->
  exists ev, is_sleep ev = false /\
    attempt_body llm prompt a tr = (SFallThrough, tr ++ [the_post prompt; ev])%list.
Proof.
  intro H. unfold attempt_body, the_post.
  destruct (llm a) as [msg | status text body]; simpl in H.
  - eexists. split; [|rewrite <- app_assoc; reflexivity]. reflexivity.
  - destruct (Z.eqb status 200); simpl in H.
    + destruct body; [discriminate|]. simpl.
      eexists. split; [|rewrite <- app_assoc; reflexivity]. reflexivity.
    + eexists. split; [|rewrite <- app_assoc; reflexivity]. reflexivity.
Qed.

Lemma retry_loop_retryable (llm : nat -> outcome) (prompt : string) (a : nat)
  (rest : list nat) (tr : trace) :
  retryable (llm a) = true ->
  exists ev, is_sleep ev = false /\
    retry_loop llm prompt (a :: rest) tr
    = retry_loop llm prompt rest (backoff a (tr ++ [the_post prompt; ev])%list).
Proof.
  intro H. destruct (attempt_body_retryable llm prompt a tr H) as [ev [Hs He]].
  exists ev. split; [exact Hs|]. simpl. now rewrite He.
Qed.

Lemma attempt_body_success (llm : nat -> outcome) (prompt : string) (a : nat) (tr : trace)
  (text : string) (data : json) (s : string) :
  llm a = OResponse 200 text (Some data) -> first_choice_content data = Some s ->
  attempt_body llm prompt a tr = (SReturn (Some (py_strip s)), tr ++ [the_post prompt])%list.
Proof.
  intros Hl Hd. destruct (first_choice_content_ok data s Hd) as [Hc Hf].
  unfold attempt_body. rewrite Hl. simpl. rewrite Hc, Hf. reflexivity.
Qed.

Lemma sleeps_app (t1 t2 : trace) : sleeps (t1 ++ t2) = (sleeps t1 ++ sleeps t2)%list.
Proof.
  induction t1 as [|e t1 IH]; simpl; [reflexivity|].
  destruct e; simpl; try rewrite IH; reflexivity.
Qed.

Lemma count_posts_app (t1 t2 : trace) :
  count_posts (t1 ++ t2)%list = count_posts t1 + count_posts t2.
Proof. unfold count_posts. now rewrite filter_app, length_app. Qed.

Lemma sleeps_not_sleep (e : event) (t : trace) :
  is_sleep e = false -> sleeps (e :: t) = sleeps t.
Proof. destruct e; simpl; congruence. Qed.

Lemma sleeps_post_then (prompt : string) (e : event) (t : trace) :
  is_sleep e = false -> sleeps (the_post prompt :: e :: t) = sleeps t.
Proof. intro H. exact (sleeps_not_sleep e t H). Qed.

Lemma sleeps_retrying (d d' : nat) (t : trace) :
  sleeps (EvPrintRetrying d :: EvSleep d' :: t) = d' :: sleeps t.
Proof. reflexivity. Qed.

Lemma attempt_body_200 (llm : nat -> outcome) (prompt : string) (a : nat) (tr : trace)
  (text : string) (data : json) :
  llm a = OResponse 200 text (Some data) ->
  attempt_body llm prompt a tr =
  match has_choices data with
  | Exc e => (SRaise e, tr ++ [the_post prompt])
  | Ok true =>
      match first_content data with
      | Ok s => (SReturn (Some s), tr ++ [the_post prompt])
      | Exc e => (SRaise e, tr ++ [the_post prompt])
      end
  | Ok false => (SReturn None, tr ++ [the_post prompt; EvPrintUnexpected data])
  end.
Proof.
  intro Hl. unfold attempt_body, the_post. rewrite Hl. simpl.
  destruct (has_choices data) as [[|]|e]; [destruct (first_content data)| |];
    try reflexivity.
  now rewrite <- app_assoc.
Qed.

(** When the three attempts all fail in a retryable way. *)
Lemma call_llm_api_all_retryable (llm : nat -> outcome) (prompt : string) (tr : trace) :
  (forall i, i < MAX_RETRIES -> retryable (llm i) = true) ->
  exists e0 e1 e2,
    is_sleep e0 = false /\ is_sleep e1 = false /\ is_sleep e2 = false /\
    call_llm_api llm prompt tr =
      (Ok None, tr ++ [the_post prompt; e0; EvPrintRetrying 1; EvSleep 1;
                       the_post prompt; e1; EvPrintRetrying 2; EvSleep 2;
                       the_post prompt; e2;
                       EvPrint "Failed to get response from LLM after all retries."]).
Proof.
  intro H. unfold call_llm_api. change (seq 0 MAX_RETRIES) with [0; 1; 2].
  destruct (retry_loop_retryable llm prompt 0 [1; 2] tr) as [e0 [S0 R0]];
    [apply H; unfold MAX_RETRIES; lia|]. rewrite R0.
  destruct (retry_loop_retryable llm prompt 1 [2] (backoff 0 (tr ++ [the_post prompt; e0])))
    as [e1 [S1 R1]]; [apply H; unfold MAX_RETRIES; lia|]. rewrite R1.
  destruct (retry_loop_retryable llm prompt 2 [] (backoff 1 (backoff 0 (tr ++ [the_post prompt; e0]) ++ [the_post prompt; e1])))
    as [e2 [S2 R2]]; [apply H; unfold MAX_RETRIES; lia|]. rewrite R2.
  exists e0, e1, e2. repeat split; try assumption.
  unfold backoff. simpl. now rewrite <- !app_assoc.
Qed.

(** A 200 carrying a well-formed first choice at attempt [i], after [i]
    retryable failures. *)
Lemma call_llm_api_success (llm : nat -> outcome) (prompt : string) (tr : trace)
  (i : nat) (text : string) (data : json) (s : string) :
  i < MAX_RETRIES -> (forall j, j < i -> retryable (llm j) = true) ->
  llm i = OResponse 200 text (Some data) -> first_choice_content data = Some s ->
  exists tr', call_llm_api llm prompt tr = (Ok (Some (py_strip s)), tr').
Proof.
  intros Hi Hpre Hl Hd. unfold call_llm_api. change (seq 0 MAX_RETRIES) with [0; 1; 2].
  unfold MAX_RETRIES in Hi.
  destruct i as [|[|[|i]]]; [| | |lia].
  - simpl. rewrite (attempt_body_success llm prompt 0 tr text data s Hl Hd).
    eexists; reflexivity.
  - destruct (retry_loop_retryable llm prompt 0 [1; 2] tr) as [e0 [_ ->]];
      [apply Hpre; lia|].
    simpl. erewrite attempt_body_success by eassumption. eexists; reflexivity.
  - destruct (retry_loop_retryable llm prompt 0 [1; 2] tr) as [e0 [_ ->]];
      [apply Hpre; lia|].
    destruct (retry_loop_retryable llm prompt 1 [2] (backoff 0 (tr ++ [the_post prompt; e0])))
      as [e1 [_ ->]]; [apply Hpre; lia|].
    simpl. erewrite attempt_body_success by eassumption. eexists; reflexivity.
Qed.

Lemma handled_outcome_cases (o : outcome) :
  handled_outcome o = true ->
  retryable o = true \/
  exists text data, o = OResponse 200 text (Some data) /\
    (choices_missing_or_empty data = true \/ exists s, first_choice_content data = Some s).
Proof.
  unfold handled_outcome. intro H. destruct (retryable o) eqn:Hr; [now left|].
  simpl in H. right.
  destruct o as [msg | status text body]; simpl in Hr; [discriminate|].
  destruct (Z.eqb status 200) eqn:Hs; simpl in Hr; [|discriminate].
  destruct body as [data|]; [|discriminate]. apply Z.eqb_eq in Hs. subst status.
  exists text, data. split; [reflexivity|].
  destruct (choices_missing_or_empty data); [now left|right].
  destruct (first_choice_content data) as [s|]; [now exists s | discriminate].
Qed.

Lemma retry_loop_handled (llm : nat -> outcome) (prompt : string) (atts : list nat) (tr : trace) :
  (forall a, In a atts -> handled_outcome (llm a) = true) ->
  exists r tr', retry_loop llm prompt atts tr = (Ok r, tr').
Proof.
  revert tr; induction atts as [|a atts IH]; intros tr H.
  - simpl. eexists _, _; reflexivity.
  - destruct (handled_outcome_cases (llm a) (H a (or_introl eq_refl)))
      as [Hr | [text [data [Hl [Hm | [s Hs]]]]]].
    + destruct (retry_loop_retryable llm prompt a atts tr Hr) as [ev [_ ->]].
      apply IH. intros b Hb. apply H. now right.
    + simpl. rewrite (attempt_body_200 llm prompt a tr text data Hl).
      rewrite (choices_missing_has_choices data Hm). eexists _, _; reflexivity.
    + simpl. rewrite (attempt_body_success llm prompt a tr text data s Hl Hs).
      eexists _, _; reflexivity.
Qed.

(** Every event that one attempt or one backoff appends. *)
Lemma attempt_body_requests (llm : nat -> outcome) (prompt : string) (a : nat) (tr : trace) :
  exists new, snd (attempt_body llm prompt a tr) = tr ++ new /\
              Forall (post_as_specified prompt) new.
Proof.
  unfold attempt_body.
  destruct (llm a) as [msg | status text body];
    [| destruct (Z.eqb status 200);
       [ destruct (response_json body) as [data | e];
         [ destruct (has_choices data) as [[|]|e]; [destruct (first_content data)| |]
         | destruct (is_request_exception e) ]
       | ] ];
    simpl; eexists; (split; [try rewrite <- app_assoc; reflexivity|]);
    repeat constructor.
Qed.

Lemma backoff_requests (prompt : string) (a : nat) (tr : trace) :
  exists new, backoff a tr = tr ++ new /\ Forall (post_as_specified prompt) new.
Proof.
  unfold backoff. destruct (Nat.ltb a (MAX_RETRIES - 1)).
  - eexists. split; [reflexivity | repeat constructor].
  - exists []. split; [now rewrite app_nil_r | constructor].
Qed.

Lemma retry_loop_requests (llm : nat -> outcome) (prompt : string) (atts : list nat) (tr : trace) :
  exists new, snd (retry_loop llm prompt atts tr) = tr ++ new /\
              Forall (post_as_specified prompt) new.
Proof.
  revert tr; induction atts as [|a atts IH]; intro tr; simpl.
  - eexists. split; [reflexivity | repeat constructor].
  - destruct (attempt_body_requests llm prompt a tr) as [n1 [E1 F1]].
    destruct (attempt_body llm prompt a tr) as [st tr1]. simpl in E1. subst tr1.
    destruct st.
    + exists n1. split; [reflexivity | exact F1].
    + exists n1. split; [reflexivity | exact F1].
    + destruct (backoff_requests prompt a (tr ++ n1)) as [n2 [E2 F2]]. rewrite E2.
      destruct (IH ((tr ++ n1) ++ n2)) as [n3 [E3 F3]]. rewrite E3.
      exists (n1 ++ n2 ++ n3). rewrite !app_assoc. split; [reflexivity|].
      rewrite <- !app_assoc. apply Forall_app; split; [exact F1|].
      apply Forall_app; split; assumption.
Qed.

Lemma diff_loop_no_post (items : list diff_item) (diffs : list string) (tr : trace) :
  count_posts (snd (diff_loop items diffs tr)) = count_posts tr.
Proof.
  revert diffs tr; induction items as [|it items IH]; intros diffs tr; simpl; [reflexivity|].
  destruct (git_diff it) as [t | msg];
    [destruct (process_diff t)|]; rewrite IH, ?count_posts_app;
    unfold count_posts; simpl; lia.
Qed.

(** ** C10, C1 and C5 witnesses *)

Lemma get_git_diffs_bundle_witness :
  sample_fs "repo" = GitRepo sample_items /\
  get_git_diffs sample_fs "repo" [] =
    (Ok (py_join blank_line_sep (spec_blocks sample_items)),
     snd (get_git_diffs sample_fs "repo" [])) /\
  length (spec_blocks sample_items) = 1.
Proof.
  split; [reflexivity|].
  destruct (get_git_diffs_bundle sample_fs "repo" sample_items [] eq_refl)
    as [tr' [E [Hlen Hempty]]].
  split; [rewrite E; reflexivity | vm_compute; reflexivity].
Defined.

(** ** C2: backoff when every attempt fails *)

(** C2 (as stated: sleeps of 1s, 2s and 4s, 7s in total) fails: with the
    endpoint answering HTTP 500 three times the client sleeps 1s and 2s
    only. *)
Lemma call_llm_api_backoff_counterexample :
  sleeps (snd (call_llm_api always_500 "prompt" [])) <> [1; 2; 4] /\
  list_sum (sleeps (snd (call_llm_api always_500 "prompt" []))) <> 7.
Proof. vm_compute. split; discriminate. Qed.

(** C2 (amended). When all three attempts fail in a retryable way (e.g.
    HTTP 500 each time), the client sleeps [BASE_DELAY * 2^i] seconds after
    attempts 0 and 1 (1s then 2s), does not sleep after the final attempt 2,
    so the total backoff is 3 seconds, then logs
    "Failed to get response from LLM after all retries." and returns None. *)
Theorem call_llm_api_backoff_all_fail (llm : nat -> outcome) (prompt : string) (tr : trace) :
  (forall i, i < MAX_RETRIES -> retryable (llm i) = true) ->
  exists e0 e1 e2,
    call_llm_api llm prompt tr =
      (Ok None, tr ++ [the_post prompt; e0; EvPrintRetrying 1; EvSleep 1;
                       the_post prompt; e1; EvPrintRetrying 2; EvSleep 2;
                       the_post prompt; e2;
                       EvPrint "Failed to get response from LLM after all retries."]) /\
    sleeps (snd (call_llm_api llm prompt tr)) =
      sleeps tr ++ [BASE_DELAY * 2 ^ 0; BASE_DELAY * 2 ^ 1] /\
    list_sum [BASE_DELAY * 2 ^ 0; BASE_DELAY * 2 ^ 1] = 3.
Proof.
  intro H. destruct (call_llm_api_all_retryable llm prompt tr H)
    as [e0 [e1 [e2 [S0 [S1 [S2 E]]]]]].
  exists e0, e1, e2. split; [exact E|]. split; [|reflexivity].
  rewrite E. cbn [snd]. rewrite sleeps_app.
  rewrite (sleeps_post_then prompt e0 _ S0), sleeps_retrying.
  rewrite (sleeps_post_then prompt e1 _ S1), sleeps_retrying.
  rewrite (sleeps_post_then prompt e2 _ S2). reflexivity.
Qed.

Lemma call_llm_api_backoff_all_fail_witness :
  (forall i, i < MAX_RETRIES -> retryable (always_500 i) = true) /\
  sleeps (snd (call_llm_api always_500 "prompt" [])) = [1; 2].
Proof.
  assert (H : forall i, i < MAX_RETRIES -> retryable (always_500 i) = true)
    by (intros; reflexivity).
  split; [exact H|].
  destruct (call_llm_api_backoff_all_fail always_500 "prompt" [] H) as [e0 [e1 [e2 [_ [Hs _]]]]].
  rewrite Hs. reflexivity.
Defined.

(** ** C3: what the client can raise *)

(** C3 (as stated: no 200 response of any JSON shape makes the client
    raise) fails: a 200 whose first choice has no [message] raises
    [KeyError] out of [call_llm_api]. *)
Lemma call_llm_api_raises_counterexample :
  fst (call_llm_api
         (fun _ => OResponse 200 ""
                     (Some (JObj [("choices", JArr [JObj [("text", JStr "feat: add X")]])])))
         "prompt" []) = Exc KeyError.
Proof. vm_compute. reflexivity. Qed.

(** C3 (amended). If every answer is a network exception, a non-200
    status, an undecodable 200 body, or a 200 JSON object whose [choices]
    is missing, empty, or starts with a choice carrying a string
    [message.content], then [call_llm_api] returns normally (a message or
    None). A network exception and a non-200 status each consume one
    attempt (one POST and one logged line) followed by the same backoff,
    and when all attempts are used up the result is None. *)
Theorem call_llm_api_no_raise_on_handled_outcomes (llm : nat -> outcome) (prompt : string)
  (tr : trace) :
  (forall i, i < MAX_RETRIES -> handled_outcome (llm i) = true) ->
  (exists r tr', call_llm_api llm prompt tr = (Ok r, tr')) /\
  (forall a rest tr0, retryable (llm a) = true ->
     exists ev, is_sleep ev = false /\
       retry_loop llm prompt (a :: rest) tr0
       = retry_loop llm prompt rest (backoff a (tr0 ++ [the_post prompt; ev]))) /\
  ((forall i, i < MAX_RETRIES -> retryable (llm i) = true) ->
     fst (call_llm_api llm prompt tr) = Ok None).
Proof.
  intro H. split; [|split].
  - apply retry_loop_handled. intros a Ha. apply H.
    apply in_seq in Ha. lia.
  - intros a rest tr0 Hr. now apply retry_loop_retryable.
  - intro Hr. destruct (call_llm_api_all_retryable llm prompt tr Hr)
      as [e0 [e1 [e2 [_ [_ [_ ->]]]]]]. reflexivity.
Qed.

Lemma call_llm_api_no_raise_on_handled_outcomes_witness :
  (forall i, i < MAX_RETRIES -> handled_outcome (flaky_then_ok i) = true) /\
  exists r tr', call_llm_api flaky_then_ok "prompt" [] = (Ok r, tr').
Proof.
  assert (H : forall i, i < MAX_RETRIES -> handled_outcome (flaky_then_ok i) = true)
    by (intros [|[|[|i]]] _; reflexivity).
  split; [exact H|].
  exact (proj1 (call_llm_api_no_raise_on_handled_outcomes flaky_then_ok "prompt" [] H)).
Defined.

(** ** C4: a 200 without usable choices *)

(** C4 (as stated: such a response always yields None) fails: a 200 whose
    body is [{"choices": null}] lacks a non-empty [choices] array, and
    [len(None)] on line 118 raises [TypeError] out of [call_llm_api]. *)
Lemma call_llm_api_malformed_200_counterexample :
  fst (call_llm_api (fun _ => OResponse 200 "" (Some (JObj [("choices", JNull)])))
         "prompt" []) = Exc TypeError.
Proof. vm_compute. reflexivity. Qed.

(** C4 (amended). If the first attempt gets a 200 whose JSON body lacks a
    non-empty [choices] array, the client stops after that single attempt:
    exactly one POST, no backoff sleep, and it ends with None or with an
    exception (never a message); it ends with None when the body is an
    object whose [choices] is missing or an empty array. *)
Theorem call_llm_api_malformed_200_single_attempt (llm : nat -> outcome) (prompt : string)
  (tr : trace) (text : string) (data : json) :
  llm 0 = OResponse 200 text (Some data) ->
  has_nonempty_choices_array data = false ->
  exists r tr',
    call_llm_api llm prompt tr = (r, tr') /\
    count_posts tr' = count_posts tr + 1 /\
    sleeps tr' = sleeps tr /\
    (r = Ok None \/ exists e, r = Exc e) /\
    (choices_missing_or_empty data = true -> r = Ok None).
Proof.
  intros Hl Hd. unfold call_llm_api. change (seq 0 MAX_RETRIES) with [0; 1; 2].
  simpl. rewrite (attempt_body_200 llm prompt 0 tr text data Hl).
  assert (Hp : count_posts (tr ++ [the_post prompt]) = count_posts tr + 1)
    by (rewrite count_posts_app; reflexivity).
  assert (Hs : sleeps (tr ++ [the_post prompt]) = sleeps tr)
    by (rewrite sleeps_app; simpl; apply app_nil_r).
  destruct (has_choices data) as [[|]|e] eqn:Hc.
  - destruct (first_content data) as [s|e] eqn:Hf.
    + apply first_content_needs_array in Hf. congruence.
    + exists (Exc e), (tr ++ [the_post prompt]). repeat split; try assumption.
      * right. now exists e.
      * intro Hm. rewrite (choices_missing_has_choices data Hm) in Hc. discriminate.
  - exists (Ok None), (tr ++ [the_post prompt; EvPrintUnexpected data]).
    repeat split; [| |now left].
    + rewrite count_posts_app. reflexivity.
    + rewrite sleeps_app. simpl. apply app_nil_r.
  - exists (Exc e), (tr ++ [the_post prompt]). repeat split; try assumption.
    + right. now exists e.
    + intro Hm. rewrite (choices_missing_has_choices data Hm) in Hc. discriminate.
Qed.

Lemma call_llm_api_malformed_200_single_attempt_witness :
  (fun _ : nat => OResponse 200 "{}" (Some (JObj []))) 0 = OResponse 200 "{}" (Some (JObj [])) /\
  has_nonempty_choices_array (JObj []) = false /\
  fst (call_llm_api (fun _ => OResponse 200 "{}" (Some (JObj []))) "prompt" []) = Ok None.
Proof.
  split; [reflexivity|]. split; [reflexivity|].
  destruct (call_llm_api_malformed_200_single_attempt
              (fun _ => OResponse 200 "{}" (Some (JObj []))) "prompt" [] "{}" (JObj [])
              eq_refl eq_refl) as [r [tr' [E [_ [_ [_ Hn]]]]]].
  rewrite E. simpl. exact (Hn eq_refl).
Defined.

(** ** C8: the request *)

(** C8. Every POST that [call_llm_api prompt] makes goes to the configured
    endpoint with the JSON payload [{"model": "llama3", "messages":
    [{"role": "system", "content": SYSTEM_PROMPT}, {"role": "user",
    "content": prompt}], "temperature": 0.3, "max_tokens": 500}] and the
    headers [Content-Type: application/json] and
    [Authorization: Bearer <API_KEY>]. *)
Theorem call_llm_api_request_shape (llm : nat -> outcome) (prompt : string) (tr : trace) :
  exists new, snd (call_llm_api llm prompt tr) = tr ++ new /\
              Forall (post_as_specified prompt) new.
Proof. apply retry_loop_requests. Qed.

(** ** C9: the returned and rendered message *)

(** C9. If attempt [i] gets a 200 whose first choice has the string
    content [s] (after [i] retryable failures), [call_llm_api] returns
    [s.strip()]; and [main], on a repository with a non-empty bundle,
    ends by printing that message between two lines of fifty [=]. *)
Theorem call_llm_api_returns_stripped_content (llm : nat -> outcome) (i : nat)
  (text : string) (data : json) (s : string) :
  i < MAX_RETRIES -> (forall j, j < i -> retryable (llm j) = true) ->
  llm i = OResponse 200 text (Some data) -> first_choice_content data = Some s ->
  (forall prompt tr, fst (call_llm_api llm prompt tr) = Ok (Some (py_strip s))) /\
  (forall fs repo_path items diffs,
     fs repo_path = GitRepo items -> fst (get_git_diffs fs repo_path []) = Ok diffs ->
     diffs <> "" ->
     exists tr, main fs llm repo_path =
       (Ok tt, tr ++ [EvPrint "Suggested commit message:"; EvPrint fifty_equals;
                      EvPrint (py_strip s); EvPrint fifty_equals])).
Proof.
  intros Hi Hpre Hl Hd. split.
  - intros prompt tr.
    destruct (call_llm_api_success llm prompt tr i text data s Hi Hpre Hl Hd) as [tr' ->].
    reflexivity.
  - intros fs repo_path items diffs Hfs Hg Hne.
    unfold main, is_git_repository, git_Repo. rewrite Hfs.
    destruct (get_git_diffs fs repo_path []) as [r tr0]. simpl in Hg. subst r.
    destruct (String.eqb diffs "") eqn:He; [apply String.eqb_eq in He; contradiction|].
    unfold generate_commit_message.
    destruct (call_llm_api_success llm (user_prompt diffs) tr0 i text data s Hi Hpre Hl Hd)
      as [tr' ->].
    exists tr'. reflexivity.
Qed.

Lemma call_llm_api_returns_stripped_content_witness :
  (1 < MAX_RETRIES /\ (forall j, j < 1 -> retryable (flaky_then_ok j) = true) /\
   flaky_then_ok 1 = OResponse 503 "Service Unavailable" None) /\
  (2 < MAX_RETRIES /\ (forall j, j < 2 -> retryable (flaky_then_ok j) = true) /\
   first_choice_content
     (JObj [("choices", JArr [JObj [("message", JObj [("content", JStr "  feat: add X  ")])]])])
     = Some "  feat: add X  ") /\
  fst (call_llm_api flaky_then_ok "prompt" []) = Ok (Some "feat: add X") /\
  exists tr, main sample_fs flaky_then_ok "repo" =
    (Ok tt, tr ++ [EvPrint "Suggested commit message:"; EvPrint fifty_equals;
                   EvPrint "feat: add X"; EvPrint fifty_equals]).
Proof.
  assert (Hpre : forall j, j < 2 -> retryable (flaky_then_ok j) = true)
    by (intros [|[|j]] Hj; [reflexivity | reflexivity | lia]).
  destruct (call_llm_api_returns_stripped_content flaky_then_ok 2 ""
              (JObj [("choices", JArr [JObj [("message", JObj [("content", JStr "  feat: add X  ")])]])])
              "  feat: add X  " ltac:(unfold MAX_RETRIES; lia) Hpre eq_refl eq_refl)
    as [Hcall Hmain].
  split; [split; [unfold MAX_RETRIES; lia | split; [intros j Hj; apply Hpre; lia | reflexivity]]|].
  split; [split; [unfold MAX_RETRIES; lia | split; [exact Hpre | reflexivity]]|].
  split.
  - rewrite Hcall. vm_compute. reflexivity.
  - destruct (Hmain sample_fs "repo" sample_items
                (py_join blank_line_sep (spec_blocks sample_items)) eq_refl)
      as [tr Htr].
    + vm_compute. reflexivity.
    + vm_compute. discriminate.
    + exists tr. rewrite Htr. vm_compute. reflexivity.
Defined.

(** ** C6: paths that are not repositories *)

(** C6. On a plain directory [main] prints
    "Error: The specified path is not a valid git repository.", queries no
    repository, makes no request and exits with status 0. On a path that
    does not exist, however, [git.Repo] raises [NoSuchPathError], which
    [is_git_repository] does not catch: [main] prints nothing of its own and
    the process exits with status 1. *)
Theorem main_path_not_a_repository (llm : nat -> outcome) (repo_path : string) :
  main (fun _ => PlainDirectory) llm repo_path =
    (Ok tt, [EvPrint "Error: The specified path is not a valid git repository."]) /\
  exit_code (fst (main (fun _ => PlainDirectory) llm repo_path)) = 0 /\
  main (fun _ => NoSuchPath) llm repo_path = (Exc (NoSuchPathError repo_path), []) /\
  exit_code (fst (main (fun _ => NoSuchPath) llm repo_path)) = 1.
Proof. repeat split. Qed.

(** ** C7: nothing to commit *)

(** C7. On a valid repository whose bundle is empty, [main] prints
    "No changes detected in the repository." right after the extraction,
    makes no POST and exits with status 0. *)
Theorem main_no_changes_detected (fs : string -> path_state) (llm : nat -> outcome)
  (repo_path : string) (items : list diff_item) :
  fs repo_path = GitRepo items ->
  fst (get_git_diffs fs repo_path []) = Ok "" ->
  main fs llm repo_path =
    (Ok tt, snd (get_git_diffs fs repo_path []) ++
            [EvPrint "No changes detected in the repository."]) /\
  count_posts (snd (main fs llm repo_path)) = 0 /\
  exit_code (fst (main fs llm repo_path)) = 0.
Proof.
  intros Hfs Hg.
  assert (Hm : main fs llm repo_path =
    (Ok tt, snd (get_git_diffs fs repo_path []) ++
            [EvPrint "No changes detected in the repository."])).
  { unfold main, is_git_repository. unfold git_Repo at 1. rewrite Hfs.
    destruct (get_git_diffs fs repo_path []) as [r tr0]. simpl in Hg. subst r.
    reflexivity. }
  split; [exact Hm|]. rewrite Hm. split; [|reflexivity].
  cbn [snd]. rewrite count_posts_app.
  assert (Hn : count_posts (snd (get_git_diffs fs repo_path [])) = 0).
  { unfold get_git_diffs, git_Repo. rewrite Hfs.
    destruct (diff_loop items [] ([] ++ [EvIndexDiff])) as [d t] eqn:Hl.
    pose proof (diff_loop_no_post items [] ([] ++ [EvIndexDiff])) as Hn.
    rewrite Hl in Hn. cbn [snd] in Hn |- *. rewrite Hn. reflexivity. }
  rewrite Hn. reflexivity.
Qed.

Lemma main_no_changes_detected_witness :
  sample_fs "empty" = GitRepo [] /\
  fst (get_git_diffs sample_fs "empty" []) = Ok "" /\
  snd (main sample_fs always_500 "empty") =
    [EvIndexDiff; EvPrint "No changes detected in the repository."].
Proof.
  split; [reflexivity|]. split; [reflexivity|].
  destruct (main_no_changes_detected sample_fs always_500 "empty" [] eq_refl eq_refl)
    as [Hm _].
  rewrite Hm. reflexivity.
Defined.

(* ------------------------------------------------------------------ *)
(** * Further properties of the code *)

(** ** Helper facts *)

Lemma retry_loop_cons (llm : nat -> outcome) (prompt : string) (a : nat)
  (rest : list nat) (tr : trace) :
  retry_loop llm prompt (a :: rest) tr =
  match attempt_body llm prompt a tr with
  | (SReturn r, tr') => (Ok r, tr')
  | (SRaise e, tr') => (Exc e, tr')
  | (SFallThrough, tr') => retry_loop llm prompt rest (backoff a tr')
  end.
Proof. reflexivity. Qed.

Lemma backoff_app (a : nat) (tr : trace) : backoff a tr = tr ++ backoff a [].
Proof. unfold backoff. destruct (Nat.ltb a (MAX_RETRIES - 1)); [reflexivity | now rewrite app_nil_r]. Qed.

Lemma backoff_no_post (a : nat) : count_posts (backoff a []) = 0.
Proof. unfold backoff. destruct (Nat.ltb a (MAX_RETRIES - 1)); reflexivity. Qed.

(** One attempt appends exactly one POST, possibly followed by one logged
    line, and never sleeps. *)
Lemma attempt_body_trace (llm : nat -> outcome) (prompt : string) (a : nat) (tr : trace) :
  exists evs, snd (attempt_body llm prompt a tr) = tr ++ the_post prompt :: evs /\
              count_posts evs = 0 /\ sleeps evs = [].
Proof.
  unfold attempt_body, the_post.
  destruct (llm a) as [msg | status text body];
    [| destruct (Z.eqb status 200);
       [ destruct body as [data|];
         [ simpl; destruct (has_choices data) as [[|]|e]; [destruct (first_content data)| |]
         | ]
       | ] ];
    simpl; eexists; (split; [try rewrite <- app_assoc; reflexivity | split; reflexivity]).
Qed.

Lemma count_posts_post (prompt : string) (evs : trace) :
  count_posts (the_post prompt :: evs) = S (count_posts evs).
Proof. reflexivity. Qed.

Lemma sleeps_post (prompt : string) (evs : trace) :
  sleeps (the_post prompt :: evs) = sleeps evs.
Proof. reflexivity. Qed.

(** Bounds on a run of the retry loop over [atts]: at most one POST per
    attempt, at least one if there is an attempt, and the sleeps are a
    prefix of the backoff delays of the attempts. *)
Lemma retry_loop_bounds (llm : nat -> outcome) (prompt : string) (atts : list nat) (tr : trace) :
  exists new k,
    snd (retry_loop llm prompt atts tr) = tr ++ new /\
    count_posts new <= length atts /\
    (atts <> [] -> 1 <= count_posts new) /\
    sleeps new = firstn k (flat_map backoff_delays atts).
Proof.
  revert tr; induction atts as [|a rest IH]; intro tr.
  - exists [EvPrint "Failed to get response from LLM after all retries."], 0.
    split; [reflexivity|]. split; [unfold count_posts; simpl; lia|].
    split; [now intros [] | reflexivity].
  - rewrite retry_loop_cons.
    destruct (attempt_body_trace llm prompt a tr) as [evs [E [P S]]].
    destruct (attempt_body llm prompt a tr) as [st t0]. simpl in E. subst t0.
    destruct st.
    + exists (the_post prompt :: evs), 0. simpl snd.
      rewrite count_posts_post, sleeps_post, P, S.
      split; [reflexivity|]. split; [simpl; lia|]. split; [lia | reflexivity].
    + exists (the_post prompt :: evs), 0. simpl snd.
      rewrite count_posts_post, sleeps_post, P, S.
      split; [reflexivity|]. split; [simpl; lia|]. split; [lia | reflexivity].
    + rewrite backoff_app.
      destruct (IH ((tr ++ the_post prompt :: evs) ++ backoff a [])) as [n [k [E2 [P2 [_ S2]]]]].
      exists (the_post prompt :: evs ++ backoff a [] ++ n), (length (backoff_delays a) + k).
      rewrite E2, <- !app_assoc. split; [reflexivity|]. split; [|split].
      * rewrite count_posts_post, !count_posts_app, P, backoff_no_post. simpl. lia.
      * intros _. rewrite count_posts_post. lia.
      * rewrite sleeps_post, !sleeps_app, S, S2. simpl flat_map.
        rewrite firstn_app_2. reflexivity.
Qed.

Lemma diff_loop_no_sleep (items : list diff_item) (diffs : list string) (tr : trace) :
  sleeps (snd (diff_loop items diffs tr)) = sleeps tr.
Proof.
  revert diffs tr; induction items as [|it items IH]; intros diffs tr; simpl; [reflexivity|].
  destruct (git_diff it) as [t | msg];
    [destruct (process_diff t)|]; rewrite IH, ?sleeps_app; simpl; now rewrite ?app_nil_r.
Qed.

Lemma attempt_body_raise (llm : nat -> outcome) (prompt : string) (a : nat) (tr : trace) (e : exn) :
  fst (attempt_body llm prompt a tr) = SRaise e ->
  exists text data, llm a = OResponse 200 text (Some data) /\
    (has_choices data = Exc e \/ (has_choices data = Ok true /\ first_content data = Exc e)).
Proof.
  unfold attempt_body.
  destruct (llm a) as [msg | status text body]; simpl; [discriminate|].
  destruct (Z.eqb status 200) eqn:Hs; simpl; [|discriminate].
  apply Z.eqb_eq in Hs. subst status.
  destruct body as [data|]; simpl; [|discriminate].
  destruct (has_choices data) as [[|]|e'] eqn:Hc; [destruct (first_content data) eqn:Hf| |];
    simpl; intro H; try discriminate; injection H as <-; exists text, data; auto.
Qed.

Lemma retry_loop_raise (llm : nat -> outcome) (prompt : string) (atts : list nat)
  (tr : trace) (e : exn) :
  fst (retry_loop llm prompt atts tr) = Exc e ->
  exists a text data, In a atts /\ llm a = OResponse 200 text (Some data) /\
    (has_choices data = Exc e \/ (has_choices data = Ok true /\ first_content data = Exc e)).
Proof.
  revert tr; induction atts as [|a rest IH]; intro tr; simpl; [discriminate|].
  destruct (attempt_body llm prompt a tr) as [st t0] eqn:A.
  destruct st as [r | e' |]; simpl.
  - discriminate.
  - intros [= ->]. destruct (attempt_body_raise llm prompt a tr e) as [text [data H]];
      [now rewrite A|]. exists a, text, data. split; [now left | exact H].
  - intro H. destruct (IH _ H) as [b [text [data [Hin Hb]]]].
    exists b, text, data. split; [now right | exact Hb].
Qed.

Lemma attempt_body_200_final (llm : nat -> outcome) (prompt : string) (a : nat) (tr : trace)
  (text : string) (data : json) :
  llm a = OResponse 200 text (Some data) ->
  exists st evs, attempt_body llm prompt a tr = (st, tr ++ the_post prompt :: evs) /\
    st <> SFallThrough /\ count_posts evs = 0 /\ sleeps evs = [].
Proof.
  intro Hl. rewrite (attempt_body_200 llm prompt a tr text data Hl).
  destruct (has_choices data) as [[|]|e]; [destruct (first_content data)| |];
    eexists _, _; (split; [reflexivity|]); (split; [discriminate | split; reflexivity]).
Qed.

(** Retryable failures on [pre], then a 200 with a JSON body. *)
Lemma retry_loop_until_200 (llm : nat -> outcome) (prompt : string) (b : nat)
  (text : string) (data : json) (pre rest : list nat) (tr : trace) :
  (forall a, In a pre -> retryable (llm a) = true) ->
  llm b = OResponse 200 text (Some data) ->
  exists new, snd (retry_loop llm prompt (pre ++ b :: rest) tr) = tr ++ new /\
    count_posts new = S (length pre) /\ sleeps new = flat_map backoff_delays pre.
Proof.
  intros Hpre Hb. revert tr; induction pre as [|a pre IH]; intro tr.
  - cbn [app]. rewrite retry_loop_cons.
    destruct (attempt_body_200_final llm prompt b tr text data Hb)
      as [st [evs [A [Hst [P S]]]]]. rewrite A.
    exists (the_post prompt :: evs).
    destruct st; [| |contradiction]; simpl snd;
      (split; [reflexivity|]); rewrite count_posts_post, sleeps_post, P, S; split; reflexivity.
  - cbn [app]. rewrite retry_loop_cons.
    destruct (attempt_body_trace llm prompt a tr) as [evs [E [P S]]].
    destruct (attempt_body_retryable llm prompt a tr) as [ev [_ A]];
      [apply Hpre; now left|].
    rewrite A in E |- *. simpl in E. apply app_inv_head in E. injection E as <-.
    rewrite backoff_app.
    destruct (IH (fun x Hx => Hpre x (or_intror Hx)) ((tr ++ [the_post prompt; ev]) ++ backoff a []))
      as [n [E2 [P2 S2]]].
    exists (the_post prompt :: [ev] ++ backoff a [] ++ n).
    rewrite E2, <- !app_assoc. split; [reflexivity|]. split.
    + rewrite count_posts_post, !count_posts_app, P, backoff_no_post, P2. simpl. lia.
    + rewrite sleeps_post, !sleeps_app, S, S2. reflexivity.
Qed.

Lemma diff_loop_trace (items : list diff_item) (diffs : list string) (tr : trace) :
  snd (diff_loop items diffs tr) = tr ++ flat_map item_events items.
Proof.
  revert diffs tr; induction items as [|it items IH]; intros diffs tr;
    cbn [diff_loop flat_map].
  - cbn [snd]. now rewrite app_nil_r.
  - assert (Hi : item_events it = EvGitDiff (a_path it) ::
                  match git_diff it with
                  | DiffRaises msg => [EvPrintWarning (a_path it) (GitCommandError msg)]
                  | DiffText _ => []
                  end) by reflexivity.
    rewrite Hi.
    destruct (git_diff it) as [t | msg]; [destruct (process_diff t)|];
      rewrite IH, <- !app_assoc; reflexivity.
Qed.

Lemma prefix_self_app (n b : string) : String.prefix n (n ++ b) = true.
Proof.
  induction n as [|c n IH]; simpl; [now destruct b|].
  destruct (Ascii.ascii_dec c c); [exact IH | contradiction].
Qed.

Lemma contains_prefix (n s : string) : String.prefix n s = true -> py_str_contains n s = true.
Proof. intro H. destruct s; cbn [py_str_contains]; rewrite H; reflexivity. Qed.

Lemma contains_app_l (n a s : string) :
  py_str_contains n s = true -> py_str_contains n (a ++ s) = true.
Proof.
  intro H. induction a as [|c a IH]; simpl; [exact H|].
  rewrite IH. apply orb_true_r.
Qed.

Lemma get_git_diffs_repo (fs : string -> path_state) (repo_path : string)
  (items : list diff_item) (tr : trace) :
  fs repo_path = GitRepo items ->
  get_git_diffs fs repo_path tr =
    (Ok (py_join blank_line_sep (spec_blocks items)),
     tr ++ EvIndexDiff :: flat_map item_events items).
Proof.
  intro Hfs. unfold get_git_diffs, git_Repo. rewrite Hfs.
  pose proof (diff_loop_blocks items [] (tr ++ [EvIndexDiff])) as B.
  pose proof (diff_loop_trace items [] (tr ++ [EvIndexDiff])) as T.
  destruct (diff_loop items [] (tr ++ [EvIndexDiff])) as [d t]. simpl in B, T.
  subst d t. now rewrite <- app_assoc.
Qed.

Lemma item_events_quiet (items : list diff_item) :
  count_posts (flat_map item_events items) = 0 /\ sleeps (flat_map item_events items) = [].
Proof.
  induction items as [|it items [IHp IHs]]; [split; reflexivity|].
  cbn [flat_map]. rewrite count_posts_app, sleeps_app, IHp, IHs.
  unfold item_events. destruct (git_diff it); split; reflexivity.
Qed.

Lemma item_events_no_post (items : list diff_item) (P : event -> Prop) :
  (forall e, is_post e = false -> P e) -> Forall P (flat_map item_events items).
Proof.
  intro HP. induction items as [|it items IH]; cbn [flat_map]; [constructor|].
  apply Forall_app. split; [|exact IH].
  unfold item_events. destruct (git_diff it); repeat constructor; apply HP; reflexivity.
Qed.

Lemma prefix_extend (c : ascii) (s line : string) :
  String.prefix (String c s) line = true -> String.prefix (String c "") line = true.
Proof.
  destruct line as [|d rest]; simpl; [discriminate|].
  destruct (Ascii.ascii_dec c d); [destruct rest; reflexivity | discriminate].
Qed.

Lemma bundle_empty_iff (items : list diff_item) :
  py_join blank_line_sep (spec_blocks items) = "" <->
  (forall it, In it items -> yields_content it = false).
Proof.
  unfold py_join. rewrite concat_empty_iff.
  - unfold spec_blocks. rewrite <- filter_empty_iff.
    split; intro H; [now apply map_eq_nil in H | now rewrite H].
  - intros b Hb. unfold spec_blocks in Hb. apply in_map_iff in Hb.
    destruct Hb as [it [<- _]]. apply spec_block_nonempty.
Qed.

Lemma bundle_nonempty (items : list diff_item) (it : diff_item) :
  In it items -> yields_content it = true ->
  String.eqb (py_join blank_line_sep (spec_blocks items)) "" = false.
Proof.
  intros Hin Hy. apply String.eqb_neq. intro He.
  rewrite (proj1 (bundle_empty_iff items) He it Hin) in Hy. discriminate.
Qed.

Lemma extraction_trace_quiet (items : list diff_item) :
  count_posts ([] ++ EvIndexDiff :: flat_map item_events items) = 0 /\
  sleeps ([] ++ EvIndexDiff :: flat_map item_events items) = [].
Proof. simpl app. apply item_events_quiet. Qed.


(** ** Extra properties *)

(** The client makes between one and [MAX_RETRIES] (3) POSTs on every
    run, and the backoff sleeps it performs are none, [1], or [1; 2]
    seconds. *)
Theorem call_llm_api_attempt_bounds (llm : nat -> outcome) (prompt : string) (tr : trace) :
  exists new, snd (call_llm_api llm prompt tr) = tr ++ new /\
    1 <= count_posts new <= MAX_RETRIES /\
    (sleeps new = [] \/ sleeps new = [1] \/ sleeps new = [1; 2]).
Proof.
  destruct (retry_loop_bounds llm prompt (seq 0 MAX_RETRIES) tr) as [new [k [E [P [P1 S]]]]].
  exists new. split; [exact E|]. split.
  - split; [apply P1; discriminate | exact P].
  - change (flat_map backoff_delays (seq 0 MAX_RETRIES)) with [1; 2] in S.
    destruct k as [|[|k]]; simpl in S; rewrite ?firstn_nil in S; auto.
Qed.

(** Any 200 response with a JSON body ends the retry loop: if attempt [i]
    gets one after [i] retryable failures, the client has made exactly
    [i+1] POSTs and slept [BASE_DELAY * 2^a] seconds after each earlier
    attempt [a]. *)
Theorem call_llm_api_200_is_final (llm : nat -> outcome) (prompt : string) (tr : trace)
  (i : nat) (text : string) (data : json) :
  i < MAX_RETRIES -> (forall j, j < i -> retryable (llm j) = true) ->
  llm i = OResponse 200 text (Some data) ->
  exists new, snd (call_llm_api llm prompt tr) = tr ++ new /\
    count_posts new = S i /\
    sleeps new = map (fun a => BASE_DELAY * 2 ^ a) (seq 0 i).
Proof.
  intros Hi Hpre Hl. unfold call_llm_api.
  assert (Hs : seq 0 MAX_RETRIES = seq 0 i ++ i :: seq (S i) (MAX_RETRIES - S i)).
  { unfold MAX_RETRIES in *. destruct i as [|[|[|i]]]; [reflexivity | reflexivity | reflexivity | lia]. }
  rewrite Hs.
  destruct (retry_loop_until_200 llm prompt i text data (seq 0 i) (seq (S i) (MAX_RETRIES - S i)) tr)
    as [new [E [P S]]].
  - intros a Ha. apply in_seq in Ha. apply Hpre. lia.
  - exact Hl.
  - exists new. split; [exact E|]. split; [rewrite P, length_seq; reflexivity|].
    rewrite S. unfold MAX_RETRIES in Hi.
    destruct i as [|[|[|i]]]; [reflexivity | reflexivity | reflexivity | lia].
Qed.

Lemma call_llm_api_200_is_final_witness :
  1 < MAX_RETRIES /\ (forall j, j < 1 -> retryable (flaky_then_ok j) = true) /\
  (fun n => match n with 0 => ONetError "timeout" | _ => OResponse 200 "{}" (Some (JObj [])) end) 1
    = OResponse 200 "{}" (Some (JObj [])) /\
  exists new, snd (call_llm_api
                     (fun n => match n with 0 => ONetError "timeout"
                                          | _ => OResponse 200 "{}" (Some (JObj [])) end)
                     "prompt" []) = new /\ count_posts new = 2.
Proof.
  split; [unfold MAX_RETRIES; lia|]. split; [intros [|j] Hj; [reflexivity | lia]|].
  split; [reflexivity|].
  destruct (call_llm_api_200_is_final
              (fun n => match n with 0 => ONetError "timeout"
                                   | _ => OResponse 200 "{}" (Some (JObj [])) end)
              "prompt" [] 1 "{}" (JObj [])) as [new [E [P _]]].
  - unfold MAX_RETRIES; lia.
  - intros [|j] Hj; [reflexivity | lia].
  - reflexivity.
  - exists new. split; [exact E | exact P].
Defined.

(** The only exceptions that escape [call_llm_api] are those raised on
    lines 118-119 while reading a 200 response with a JSON body: the
    [choices] test or the access to the first choice's content. *)
Theorem call_llm_api_raises_only_on_200_body (llm : nat -> outcome) (prompt : string)
  (tr : trace) (e : exn) :
  fst (call_llm_api llm prompt tr) = Exc e ->
  exists a text data, a < MAX_RETRIES /\ llm a = OResponse 200 text (Some data) /\
    (has_choices data = Exc e \/ (has_choices data = Ok true /\ first_content data = Exc e)).
Proof.
  intro H. destruct (retry_loop_raise llm prompt (seq 0 MAX_RETRIES) tr e H)
    as [a [text [data [Hin Ha]]]].
  apply in_seq in Hin. exists a, text, data. split; [lia | exact Ha].
Qed.

Lemma call_llm_api_raises_only_on_200_body_witness :
  fst (call_llm_api (fun _ => OResponse 200 "" (Some (JObj [("choices", JNull)]))) "prompt" [])
    = Exc TypeError /\
  exists a, a < MAX_RETRIES.
Proof.
  assert (H : fst (call_llm_api (fun _ => OResponse 200 "" (Some (JObj [("choices", JNull)])))
                     "prompt" []) = Exc TypeError) by (vm_compute; reflexivity).
  split; [exact H|].
  destruct (call_llm_api_raises_only_on_200_body _ "prompt" [] TypeError H)
    as [a [_ [_ [Ha _]]]].
  now exists a.
Defined.

Lemma is_git_repository_repo (fs : string -> path_state) (repo_path : string)
  (items : list diff_item) :
  fs repo_path = GitRepo items -> is_git_repository fs repo_path = Ok true.
Proof. intros Hfs. unfold is_git_repository, git_Repo. now rewrite Hfs. Qed.


(** When some modified file yields content and every attempt fails in a
    retryable way, [main] ends with the two absence messages
    "Failed to get response from LLM after all retries." and
    "No commit message generated." (and exits with status 0). *)
Theorem main_reports_no_message (fs : string -> path_state) (llm : nat -> outcome)
  (repo_path : string) (items : list diff_item) (it : diff_item) :
  fs repo_path = GitRepo items -> In it items -> yields_content it = true ->
  (forall i, i < MAX_RETRIES -> retryable (llm i) = true) ->
  exists tr, main fs llm repo_path =
    (Ok tt, tr ++ [EvPrint "Failed to get response from LLM after all retries.";
                   EvPrint "No commit message generated."]).
Proof.
  intros Hfs Hin Hy Hr.
  unfold main. rewrite (is_git_repository_repo fs repo_path items Hfs).
  rewrite (get_git_diffs_repo fs repo_path items [] Hfs).
  rewrite (bundle_nonempty items it Hin Hy).
  unfold generate_commit_message.
  destruct (call_llm_api_all_retryable llm (user_prompt (py_join blank_line_sep (spec_blocks items)))
              ([] ++ EvIndexDiff :: flat_map item_events items) Hr)
    as [e0 [e1 [e2 [_ [_ [_ ->]]]]]].
  set (P := the_post (user_prompt (py_join blank_line_sep (spec_blocks items)))).
  exists (([] ++ EvIndexDiff :: flat_map item_events items) ++
          [P; e0; EvPrintRetrying 1; EvSleep 1; P; e1; EvPrintRetrying 2; EvSleep 2; P; e2]).
  rewrite <- !app_assoc. reflexivity.
Qed.

Lemma main_reports_no_message_witness :
  sample_fs "repo" = GitRepo sample_items /\
  In (mk_item "app.py" (DiffText sample_diff)) sample_items /\
  yields_content (mk_item "app.py" (DiffText sample_diff)) = true /\
  (forall i, i < MAX_RETRIES -> retryable (always_500 i) = true) /\
  exists tr, snd (main sample_fs always_500 "repo") =
    tr ++ [EvPrint "Failed to get response from LLM after all retries.";
           EvPrint "No commit message generated."].
Proof.
  assert (Hr : forall i, i < MAX_RETRIES -> retryable (always_500 i) = true)
    by (intros; reflexivity).
  assert (Hin : In (mk_item "app.py" (DiffText sample_diff)) sample_items) by (left; reflexivity).
  assert (Hy : yields_content (mk_item "app.py" (DiffText sample_diff)) = true)
    by (vm_compute; reflexivity).
  split; [reflexivity|]. split; [exact Hin|]. split; [exact Hy|]. split; [exact Hr|].
  destruct (main_reports_no_message sample_fs always_500 "repo" sample_items _ eq_refl Hin Hy Hr)
    as [tr ->].
  now exists tr.
Defined.

(** When the bundle is non-empty and the first response is a 200 whose
    body makes line 118 or 119 raise [e], [main] catches [e], prints it
    and the advice "Please try again later or write the commit message
    manually.", and exits with status 0. *)
Theorem main_catches_generation_error (fs : string -> path_state) (llm : nat -> outcome)
  (repo_path : string) (items : list diff_item) (it : diff_item)
  (text : string) (data : json) (e : exn) :
  fs repo_path = GitRepo items -> In it items -> yields_content it = true ->
  llm 0 = OResponse 200 text (Some data) ->
  (has_choices data = Exc e \/ (has_choices data = Ok true /\ first_content data = Exc e)) ->
  exists tr, main fs llm repo_path =
    (Ok tt, tr ++ [EvPrintGenerationError e;
                   EvPrint "Please try again later or write the commit message manually."]).
Proof.
  intros Hfs Hin Hy Hl Hd.
  unfold main. rewrite (is_git_repository_repo fs repo_path items Hfs).
  rewrite (get_git_diffs_repo fs repo_path items [] Hfs).
  rewrite (bundle_nonempty items it Hin Hy).
  unfold generate_commit_message, call_llm_api.
  change (seq 0 MAX_RETRIES) with [0; 1; 2].
  rewrite retry_loop_cons, (attempt_body_200 llm _ 0 _ text data Hl).
  exists (([] ++ EvIndexDiff :: flat_map item_events items) ++
          [the_post (user_prompt (py_join blank_line_sep (spec_blocks items)))]).
  destruct Hd as [Hc | [Hc Hf]]; rewrite Hc; [|rewrite Hf]; cbv beta iota; reflexivity.
Qed.

Lemma main_catches_generation_error_witness :
  sample_fs "repo" = GitRepo sample_items /\
  has_choices (JObj [("choices", JNull)]) = Exc TypeError /\
  exists tr, snd (main sample_fs (fun _ => OResponse 200 "" (Some (JObj [("choices", JNull)]))) "repo") =
    tr ++ [EvPrintGenerationError TypeError;
           EvPrint "Please try again later or write the commit message manually."].
Proof.
  split; [reflexivity|]. split; [reflexivity|].
  destruct (main_catches_generation_error sample_fs
              (fun _ => OResponse 200 "" (Some (JObj [("choices", JNull)]))) "repo"
              sample_items (mk_item "app.py" (DiffText sample_diff)) "" (JObj [("choices", JNull)])
              TypeError eq_refl (or_introl eq_refl) ltac:(vm_compute; reflexivity) eq_refl
              (or_introl eq_refl)) as [tr ->].
  now exists tr.
Defined.

(** A POST event of the client is the one of line 114 for [p]. *)
Definition only_post (p : string) (e : event) : Prop :=
  is_post e = true -> e = the_post p.

Lemma no_post_only_post (p : string) (evs : trace) :
  count_posts evs = 0 -> Forall (only_post p) evs.
Proof.
  induction evs as [|e evs IH]; intro H; constructor.
  - intro He. unfold count_posts in H. simpl in H. rewrite He in H. discriminate.
  - apply IH. unfold count_posts in *. simpl in H.
    destruct (is_post e); [discriminate | exact H].
Qed.

Lemma retry_loop_posts (llm : nat -> outcome) (prompt : string) (atts : list nat) (tr : trace) :
  exists new, snd (retry_loop llm prompt atts tr) = tr ++ new /\
              Forall (only_post prompt) new.
Proof.
  revert tr; induction atts as [|a atts IH]; intro tr.
  - simpl. eexists. split; [reflexivity|]. repeat constructor; discriminate.
  - rewrite retry_loop_cons.
    destruct (attempt_body_trace llm prompt a tr) as [evs [E [Hp _]]].
    assert (F1 : Forall (only_post prompt) (the_post prompt :: evs))
      by (constructor; [intros _; reflexivity | now apply no_post_only_post]).
    destruct (attempt_body llm prompt a tr) as [st tr1]. simpl in E. subst tr1.
    destruct st.
    + eexists. split; [reflexivity | exact F1].
    + eexists. split; [reflexivity | exact F1].
    + rewrite backoff_app.
      destruct (IH ((tr ++ the_post prompt :: evs) ++ backoff a [])) as [n3 [E3 F3]].
      rewrite E3. exists ((the_post prompt :: evs) ++ backoff a [] ++ n3).
      rewrite !app_assoc. split; [reflexivity|].
      rewrite <- !app_assoc. apply Forall_app; split; [exact F1|].
      apply Forall_app; split; [apply no_post_only_post, backoff_no_post | exact F3].
Qed.


Lemma contains_user_prompt (diffs : string) :
  py_str_contains diffs (user_prompt diffs) = true.
Proof.
  unfold user_prompt.
  apply contains_app_l, contains_app_l, contains_app_l.
  apply contains_prefix, prefix_self_app.
Qed.



(** On a repository, the prompt [main] sends contains the extracted bundle
    verbatim, and every POST [main] makes is the one of line 114 for that
    prompt: to [API_ENDPOINT], with the payload and headers of lines
    97-110 and a 30 s timeout. *)
Theorem main_posts_carry_bundle (fs : string -> path_state) (llm : nat -> outcome)
  (repo_path : string) (items : list diff_item) :
  fs repo_path = GitRepo items ->
  exists bundle, fst (get_git_diffs fs repo_path []) = Ok bundle /\
    py_str_contains bundle (user_prompt bundle) = true /\
    (forall e, In e (snd (main fs llm repo_path)) -> is_post e = true ->
       e = EvPost API_ENDPOINT (payload (user_prompt bundle)) headers 30).
Proof.
  intro Hfs. exists (py_join blank_line_sep (spec_blocks items)).
  rewrite (get_git_diffs_repo fs repo_path items [] Hfs).
  split; [reflexivity|]. split; [apply contains_user_prompt|].
  intros e Hin Hp.
  unfold main in Hin. rewrite (is_git_repository_repo fs repo_path items Hfs) in Hin.
  rewrite (get_git_diffs_repo fs repo_path items [] Hfs) in Hin.
  destruct (extraction_trace_quiet items) as [Tp _].
  set (T := [] ++ EvIndexDiff :: flat_map item_events items) in *. clearbody T.
  pose proof (no_post_only_post (user_prompt (py_join blank_line_sep (spec_blocks items))) T Tp)
    as FT.
  destruct (String.eqb (py_join blank_line_sep (spec_blocks items)) "").
  - cbn [snd] in Hin. apply in_app_or in Hin as [Hin | Hin].
    + rewrite Forall_forall in FT. exact (FT e Hin Hp).
    + destruct Hin as [<- | []]. discriminate.
  - unfold generate_commit_message, call_llm_api in Hin.
    destruct (retry_loop_posts llm (user_prompt (py_join blank_line_sep (spec_blocks items)))
                (seq 0 MAX_RETRIES) T) as [new [E F]].
    destruct (retry_loop llm (user_prompt (py_join blank_line_sep (spec_blocks items)))
                (seq 0 MAX_RETRIES) T) as [r t2].
    cbn [snd] in E. subst t2.
    assert (Hall : forall x, In x (T ++ new) -> is_post x = true ->
              x = the_post (user_prompt (py_join blank_line_sep (spec_blocks items)))).
    { intros x Hx Hx'. apply in_app_or in Hx as [Hx | Hx].
      - exact (proj1 (Forall_forall _ _) FT x Hx Hx').
      - exact (proj1 (Forall_forall _ _) F x Hx Hx'). }
    destruct r as [[m|]|e'];
      cbn [snd] in Hin; apply in_app_or in Hin as [Hin | Hin];
      try (apply (Hall e Hin Hp));
      repeat (destruct Hin as [<- | Hin]; [discriminate|]); destruct Hin.
Qed.

(** Any line starting with "---" or "+++" already starts with "-" or "+":
    the tests of line 62 never decide whether a line is kept. *)
Theorem keep_line_header_tests_redundant (line : string) :
  keep_line line =
  startswith line "+" || startswith line "-" || startswith line "@@" ||
  startswith line "diff --git" || startswith line "index ".
Proof.
  unfold keep_line, startswith.
  destruct (String.prefix "+" line) eqn:Hp; [reflexivity|].
  destruct (String.prefix "-" line) eqn:Hm; [reflexivity|]. cbn [orb].
  destruct (String.prefix "---" line) eqn:H3m.
  { apply prefix_extend in H3m. rewrite H3m in Hm. discriminate. }
  destruct (String.prefix "+++" line) eqn:H3p.
  { apply prefix_extend in H3p. rewrite H3p in Hp. discriminate. }
  destruct (String.prefix "@@" line), (String.prefix "diff --git" line),
           (String.prefix "index " line); reflexivity.
Qed.


Lemma main_posts_carry_bundle_witness :
  sample_fs "repo" = GitRepo sample_items /\
  exists bundle, fst (get_git_diffs sample_fs "repo" []) = Ok bundle /\
    py_str_contains bundle (user_prompt bundle) = true /\
    (forall e, In e (snd (main sample_fs flaky_then_ok "repo")) -> is_post e = true ->
       e = EvPost API_ENDPOINT (payload (user_prompt bundle)) headers 30).
Proof.
  split; [reflexivity|].
  exact (main_posts_carry_bundle sample_fs flaky_then_ok "repo" sample_items eq_refl).
Defined.

Lemma py_bind_ok {A B} (m : pyres A) (k : A -> pyres B) (v : B) :
  py_bind m k = Ok v -> exists a, m = Ok a /\ k a = Ok v.
Proof. destruct m as [a|e]; simpl; [eauto | discriminate]. Qed.

Lemma first_content_stripped (data : json) (s : string) :
  first_content data = Ok s -> exists x, s = py_strip x.
Proof.
  unfold first_content. intro H.
  apply py_bind_ok in H as [c [_ H]]. apply py_bind_ok in H as [c0 [_ H]].
  apply py_bind_ok in H as [m [_ H]]. apply py_bind_ok in H as [ct [_ H]].
  destruct ct; simpl in H; try discriminate. injection H as <-. eauto.
Qed.

Lemma attempt_body_returns_stripped (llm : nat -> outcome) (prompt : string) (a : nat)
  (tr tr' : trace) (s : string) :
  attempt_body llm prompt a tr = (SReturn (Some s), tr') -> exists x, s = py_strip x.
Proof.
  unfold attempt_body.
  destruct (llm a) as [msg | status text body]; [discriminate|].
  destruct (Z.eqb status 200); [|discriminate].
  destruct (response_json body) as [data | e]; [| destruct (is_request_exception e); discriminate].
  destruct (has_choices data) as [[|]|e]; try discriminate.
  destruct (first_content data) as [x|e] eqn:Hf; [|discriminate].
  intro H. injection H as <- _. exact (first_content_stripped data x Hf).
Qed.

Lemma retry_loop_returns_stripped (llm : nat -> outcome) (prompt : string) (atts : list nat)
  (tr : trace) (s : string) :
  fst (retry_loop llm prompt atts tr) = Ok (Some s) -> exists x, s = py_strip x.
Proof.
  revert tr; induction atts as [|a atts IH]; intro tr; [discriminate|].
  rewrite retry_loop_cons.
  destruct (attempt_body llm prompt a tr) as [[r|e|] tr'] eqn:Hb; simpl.
  - intro H. injection H as ->. exact (attempt_body_returns_stripped llm prompt a tr tr' s Hb).
  - discriminate.
  - apply IH.
Qed.

Lemma lstrip_chars_suffix (l : list ascii) : exists pre, l = pre ++ lstrip_chars l.
Proof.
  induction l as [|c l [pre IH]]; [now exists []|]. simpl.
  destruct (py_isspace c); [exists (c :: pre); simpl; now f_equal | now exists []].
Qed.

Lemma lstrip_chars_head (l : list ascii) (c : ascii) (t : list ascii) :
  lstrip_chars l = c :: t -> py_isspace c = false.
Proof.
  induction l as [|d l IH]; simpl; [discriminate|].
  destruct (py_isspace d) eqn:Hd; [exact IH|]. intro H. injection H as -> _. exact Hd.
Qed.

Lemma lstrip_chars_idem (l : list ascii) : lstrip_chars (lstrip_chars l) = lstrip_chars l.
Proof.
  destruct (lstrip_chars l) as [|c t] eqn:E; [reflexivity|]. simpl.
  now rewrite (lstrip_chars_head l c t E).
Qed.

(** [s.strip()] is idempotent. *)
Lemma py_strip_idem (s : string) : py_strip (py_strip s) = py_strip s.
Proof.
  unfold py_strip. rewrite list_ascii_of_string_of_list_ascii.
  set (m := lstrip_chars (list_ascii_of_string s)).
  set (r := lstrip_chars (rev m)).
  assert (Hr : lstrip_chars (rev r) = rev r).
  { destruct (lstrip_chars_suffix (rev m)) as [pre Hpre]. fold r in Hpre.
    destruct (rev r) as [|c t] eqn:Ert; [reflexivity|].
    assert (Hm : m = c :: t ++ rev pre).
    { rewrite <- (rev_involutive m), Hpre, rev_app_distr, Ert. reflexivity. }
    simpl. now rewrite (lstrip_chars_head _ c _ Hm). }
  rewrite Hr, rev_involutive. unfold r. now rewrite lstrip_chars_idem.
Qed.

(** A message [call_llm_api] returns has no leading or trailing
    whitespace: stripping it again leaves it unchanged. *)
Theorem call_llm_api_message_is_stripped (llm : nat -> outcome) (prompt : string)
  (tr : trace) (s : string) :
  fst (call_llm_api llm prompt tr) = Ok (Some s) -> py_strip s = s.
Proof.
  intro H. destruct (retry_loop_returns_stripped llm prompt _ tr s H) as [x ->].
  apply py_strip_idem.
Qed.

Lemma call_llm_api_message_is_stripped_witness :
  fst (call_llm_api flaky_then_ok "p" []) = Ok (Some "feat: add X") /\
  py_strip "feat: add X" = "feat: add X".
Proof.
  assert (H : fst (call_llm_api flaky_then_ok "p" []) = Ok (Some "feat: add X"))
    by (vm_compute; reflexivity).
  split; [exact H | exact (call_llm_api_message_is_stripped flaky_then_ok "p" [] _ H)].
Defined.

(** When the bundle is non-empty and the first response is a 200 whose
    first choice has string content [x], [main] prints
    "Suggested commit message:", then [x] stripped between two lines of
    fifty "=", and exits with status 0; the endpoint is asked only once. *)
Theorem main_prints_suggestion (fs : string -> path_state) (llm : nat -> outcome)
  (repo_path : string) (items : list diff_item) (it : diff_item)
  (text : string) (data : json) (s : string) :
  fs repo_path = GitRepo items -> In it items -> yields_content it = true ->
  llm 0 = OResponse 200 text (Some data) ->
  has_choices data = Ok true -> first_content data = Ok s ->
  exists tr, main fs llm repo_path =
    (Ok tt, tr ++ [EvPrint "Suggested commit message:"; EvPrint SEPARATOR;
                   EvPrint s; EvPrint SEPARATOR]) /\
    count_posts tr = 1 /\ py_strip s = s.
Proof.
  intros Hfs Hin Hy Hl Hc Hf.
  unfold main. rewrite (is_git_repository_repo fs repo_path items Hfs).
  rewrite (get_git_diffs_repo fs repo_path items [] Hfs).
  rewrite (bundle_nonempty items it Hin Hy).
  unfold generate_commit_message, call_llm_api.
  change (seq 0 MAX_RETRIES) with [0; 1; 2].
  rewrite retry_loop_cons, (attempt_body_200 llm _ 0 _ text data Hl), Hc, Hf.
  destruct (extraction_trace_quiet items) as [Tp _].
  destruct (first_content_stripped data s Hf) as [x Hx].
  exists (([] ++ EvIndexDiff :: flat_map item_events items) ++
          [the_post (user_prompt (py_join blank_line_sep (spec_blocks items)))]).
  split; [cbv beta iota; reflexivity|]. split.
  - rewrite count_posts_app, Tp. reflexivity.
  - rewrite Hx. apply py_strip_idem.
Qed.

Lemma main_prints_suggestion_witness :
  exists tr, snd (main sample_fs (fun _ => feat_response) "repo") =
    tr ++ [EvPrint "Suggested commit message:"; EvPrint SEPARATOR;
           EvPrint "feat: add X"; EvPrint SEPARATOR] /\ count_posts tr = 1.
Proof.
  destruct (main_prints_suggestion sample_fs (fun _ => feat_response) "repo" sample_items
              (mk_item "app.py" (DiffText sample_diff)) ""
              (JObj [("choices", JArr [JObj [("message", JObj [("content", JStr "  feat: add X  ")])]])])
              "feat: add X" eq_refl (or_introl eq_refl) ltac:(vm_compute; reflexivity)
              eq_refl ltac:(vm_compute; reflexivity) ltac:(vm_compute; reflexivity))
    as [tr [E [Hp _]]].
  exists tr. rewrite E. split; [reflexivity | exact Hp].
Defined.
